(** * Cantilan ERS (emg.py): domain store and triage logic

    A shallow embedding of the in-memory store of [src/emg.py]
    (users, SOS alerts and official reports kept in the Streamlit session
    state) and of the list processing done by the role dashboards:
    distance ranking and handled/unhandled partition for responders,
    nearest hotline for citizens, user export and account deletion for
    administrators.

    Python records are dictionaries; they are embedded as insertion-ordered
    association lists of Python values, so that column order of a
    DataFrame built from them can be talked about.  External services
    (Nominatim geocoding, geopy's geodesic, the clock) are parameters. *)

From Stdlib Require Import ZArith QArith Qabs String List Lia Lqa Bool.
From Stdlib Require Import Sorting.Sorted Sorting.Permutation.
From stdpp Require Import base option list sorting gmap strings.

Import ListNotations.
Local Open Scope Z_scope.
Local Open Scope string_scope.
Local Open Scope list_scope.

(** ** Python values *)

(** The values that are stored in the records of the program.  A Python
    float is idealised as a rational number. *)
Inductive value : Type :=
  | VNone
  | VBool (b : bool)
  | VInt (z : Z)
  | VFloat (q : Q)
  | VStr (s : string).

(** A dictionary with string keys, in insertion order. *)
Definition dict : Type := list (string * value).

Module Py.

(** Numeric view used by [==]: [True == 1] and [1 == 1.0] hold in Python. *)
Definition as_number (v : value) : option Q :=
  match v with
  | VBool b => Some (if b then 1%Q else 0%Q)
  | VInt z => Some (inject_Z z)
  | VFloat q => Some q
  | VNone | VStr _ => None
  end.

(** [a == b] *)
Definition eqb (a b : value) : bool :=
  match a, b with
  | VNone, VNone => true
  | VStr s, VStr t => String.eqb s t
  | _, _ =>
      match as_number a, as_number b with
      | Some x, Some y => Qeq_bool x y
      | _, _ => false
      end
  end.

(** [a != b] *)
Definition neqb (a b : value) : bool := negb (eqb a b).

(** Truth value of [v] in a condition ([if v:], [not v], [a or b]). *)
Definition truthy (v : value) : bool :=
  match v with
  | VNone => false
  | VBool b => b
  | VInt z => negb (Z.eqb z 0)
  | VFloat q => negb (Qeq_bool q 0)
  | VStr s => negb (String.eqb s "")
  end.

(** [a or b] *)
Definition or_ (a b : value) : value := if truthy a then a else b.

(** [d[k]] / [k in d]: the entry, if any. *)
Fixpoint lookup (k : string) (d : dict) : option value :=
  match d with
  | [] => None
  | (k', v) :: d' => if String.eqb k' k then Some v else lookup k d'
  end.

(** [d.get(k)] *)
Definition get (d : dict) (k : string) : value :=
  match lookup k d with Some v => v | None => VNone end.

(** [d.get(k, dflt)] *)
Definition get_default (d : dict) (k : string) (dflt : value) : value :=
  match lookup k d with Some v => v | None => dflt end.

(** [k in d] *)
Definition mem (k : string) (d : dict) : bool :=
  match lookup k d with Some _ => true | None => false end.

(** [d[k] = v]: an existing key keeps its position, a new key goes last. *)
Fixpoint set (k : string) (v : value) (d : dict) : dict :=
  match d with
  | [] => [(k, v)]
  | (k', v') :: d' =>
      if String.eqb k' k then (k', v) :: d' else (k', v') :: set k v d'
  end.

(** The keys of [d], in insertion order. *)
Definition keys (d : dict) : list string := map fst d.

End Py.

(** ** Constants *)

Definition coords : Type := (value * value)%type.

(** [CANTILAN_CENTER = [9.3355, 125.9769]] *)
Definition CANTILAN_CENTER : coords :=
  (VFloat (93355 # 10000), VFloat (1259769 # 10000)).

(** An entry of the [HOTLINES] table. *)
Record hotline : Type := mkHotline {
  Name : string;
  Contact : string;
  Address : string
}.

Definition HOTLINES : list hotline :=
  [ mkHotline "BFP - Fire Station" "0917-000-0000"
      "Brgy. Center, Cantilan, Surigao del Sur";
    mkHotline "PNP - Police Station" "0917-111-1111"
      "Municipal Hall, Cantilan, Surigao del Sur";
    mkHotline "LGU Cantilan (DRRMO)" "0917-222-2222"
      "Municipal Hall, Cantilan, Surigao del Sur";
    mkHotline "Municipal Health Office" "0917-333-3333"
      "Health Center, Cantilan, Surigao del Sur" ].

(** ** The session state *)

Record store : Type := mkStore {
  users : list dict;
  sos_logs : list dict;
  reports : list dict;
  hotline_coordinates : gmap string coords
}.

(** [initialize_session_state] on a fresh session. *)
Definition initial_store : store :=
  {| users := []; sos_logs := []; reports := []; hotline_coordinates := ∅ |}.

Definition with_users (us : list dict) (s : store) : store :=
  {| users := us; sos_logs := sos_logs s; reports := reports s;
     hotline_coordinates := hotline_coordinates s |}.

Definition with_sos_logs (ls : list dict) (s : store) : store :=
  {| users := users s; sos_logs := ls; reports := reports s;
     hotline_coordinates := hotline_coordinates s |}.

Definition with_reports (rs : list dict) (s : store) : store :=
  {| users := users s; sos_logs := sos_logs s; reports := rs;
     hotline_coordinates := hotline_coordinates s |}.

Definition with_hotline_coordinates (m : gmap string coords) (s : store) : store :=
  {| users := users s; sos_logs := sos_logs s; reports := reports s;
     hotline_coordinates := m |}.

(** [len(xs) + 1] *)
Definition next_id (xs : list dict) : Z := Z.of_nat (length xs) + 1.

(** What a handler shows to the person at the screen. *)
Inductive notice : Type :=
  | Error (msg : string)
  | Warning (msg : string)
  | Success (msg : string).

(** ** Operations that do not call an external service *)

(** [validate_login]: the first user whose username and password both
    compare equal to the arguments. *)
Fixpoint validate_login_in (us : list dict) (username password : string)
  : option dict :=
  match us with
  | [] => None
  | user :: rest =>
      if Py.eqb (Py.get user "username") (VStr username)
         && Py.eqb (Py.get user "password") (VStr password)
      then Some user
      else validate_login_in rest username password
  end.

Definition validate_login (s : store) (username password : string) : option dict :=
  validate_login_in (users s) username password.

(** [get_user_by_username] *)
Fixpoint get_user_by_username_in (us : list dict) (username : string)
  : option dict :=
  match us with
  | [] => None
  | user :: rest =>
      if Py.eqb (Py.get user "username") (VStr username) then Some user
      else get_user_by_username_in rest username
  end.

Definition get_user_by_username (s : store) (username : string) : option dict :=
  get_user_by_username_in (users s) username.

(** [delete_user_by_id]: two list comprehensions. *)
Definition delete_user_by_id (user_id : Z) (s : store) : store :=
  {| users :=
       List.filter (fun user => Py.neqb (Py.get user "id") (VInt user_id))
         (users s);
     sos_logs :=
       List.filter (fun log => Py.neqb (Py.get log "user_id") (VInt user_id))
         (sos_logs s);
     reports := reports s;
     hotline_coordinates := hotline_coordinates s |}.

(** The loop of [mark_sos_handled]: the first alert whose id compares equal
    is updated, then the loop breaks. *)
Fixpoint mark_handled_in (ls : list dict) (sos_id : Z) : list dict :=
  match ls with
  | [] => []
  | sos :: rest =>
      if Py.eqb (Py.get sos "id") (VInt sos_id)
      then Py.set "handled" (VBool true) sos :: rest
      else sos :: mark_handled_in rest sos_id
  end.

Definition mark_sos_handled (sos_id : Z) (s : store) : store :=
  with_sos_logs (mark_handled_in (sos_logs s) sos_id) s.

(** The normalising loop of [get_active_sos]; the rows of the returned
    DataFrame are the records of the store after it. *)
Definition ensure_handled (sos : dict) : dict :=
  if Py.mem "handled" sos then sos else Py.set "handled" (VBool false) sos.

Definition get_active_sos (s : store) : store :=
  with_sos_logs (map ensure_handled (sos_logs s)) s.

(** The administrator's "Delete User" button (admin_dashboard).  The
    number input has [min_value=1], the test [> 0] is the source's. *)
Definition admin_delete_user (user : dict) (user_id_to_delete : Z) (s : store)
  : store * list notice :=
  if Z.ltb 0 user_id_to_delete then
    if Py.eqb (VInt user_id_to_delete) (Py.get user "id")
    then (s, [Error "You cannot delete your own account!"])
    else (delete_user_by_id user_id_to_delete s,
          [Success "User deleted successfully."])  (* the text names the id *)
  else (s, []).

(** ** The users DataFrame and its CSV export *)

(** Columns of [pd.DataFrame(records)]: the keys of the records, each at
    its first appearance. *)
Fixpoint add_columns (cols : list string) (ks : list string) : list string :=
  match ks with
  | [] => cols
  | k :: ks' =>
      if existsb (String.eqb k) cols then add_columns cols ks'
      else add_columns (cols ++ [k]) ks'
  end.

Definition df_columns (records : list dict) : list string :=
  fold_left (fun cols r => add_columns cols (Py.keys r)) records [].

(** [df.to_csv(index=False)] as a table: the header row, then one row per
    record with the cell of every column ([None] for a record without that
    key, written as an empty field). *)
Record csv : Type := mkCsv {
  header : list string;
  body : list (list (option value))
}.

Definition to_csv (records : list dict) : csv :=
  let cols := df_columns records in
  {| header := cols;
     body := map (fun r => map (fun c => Py.lookup c r) cols) records |}.

(** The "Export Users CSV" button of admin_dashboard; it is only drawn when
    the users DataFrame is not empty.  [df_users.empty] holds when the table
    has no row or no column; a table without rows has no column. *)
Definition export_users_csv (s : store) : option csv :=
  match df_columns (users s) with
  | [] => None
  | _ :: _ => Some (to_csv (users s))
  end.

(** ** Sorting as [list.sort(key=...)] does: ascending, stable, using [<] *)

Section StableSort.
Context {A : Type} (lt : A -> A -> bool).

(** [x] stood before the elements of [l]; it moves right only past strictly
    smaller ones. *)
Fixpoint insert_before_ties (x : A) (l : list A) : list A :=
  match l with
  | [] => [x]
  | y :: l' => if lt y x then y :: insert_before_ties x l' else x :: l
  end.

Definition list_sort (l : list A) : list A :=
  fold_right insert_before_ties [] l.

(** [a <= b] as the sort sees it: not [b < a]. *)
Definition not_after (a b : A) : Prop := lt b a = false.
End StableSort.

(** A distance in kilometres, or [None]. *)
Definition distance : Type := option Q.

(** [key a < key b] for the key [x if x is not None else float('inf')]. *)
Definition key_lt (a b : distance) : bool :=
  match a, b with
  | Some x, Some y => negb (Qle_bool y x)
  | Some _, None => true
  | None, _ => false
  end.

(** [key a <= key b] and [key a == key b] on the same keys. *)
Definition key_le (a b : distance) : bool := negb (key_lt b a).
Definition key_eq (a b : distance) : bool := key_le a b && key_le b a.

(** ** Sample services, for evaluating the program on concrete inputs *)

(** A provider that is down or finds nothing. *)
Definition geocoder_down : value -> option (Q * Q) := fun _ => None.

Definition address_not_found : value -> value -> string :=
  fun _ _ => "Address not found".

(** A planar stand-in for the geodesic distance: 111 km per degree along
    each axis, [None] where a coordinate is not a number.  Like the geodesic
    distance it is 0 between a point and itself. *)
Definition grid_distance (c1 c2 : coords) : distance :=
  match Py.as_number (fst c1), Py.as_number (snd c1),
        Py.as_number (fst c2), Py.as_number (snd c2) with
  | Some a, Some b, Some c, Some d =>
      Some (Qred (111 * (Qabs (a - c) + Qabs (b - d))))%Q
  | _, _, _, _ => None
  end.

(** ** Operations and dashboards that call external services *)

Section Services.

(** [geocode_address]: coordinates, or [None] when the provider finds
    nothing or the call raises. *)
Variable geocode_address : value -> option (Q * Q).

(** [get_address_from_coords]: always a string (an address,
    "Address not found" or the error text). *)
Variable get_address_from_coords : value -> value -> string.

(** [get_distance]: geopy's geodesic distance in kilometres, [None] when
    geopy raises. *)
Variable get_distance : coords -> coords -> distance.

Definition geocoded (c : Q * Q) : coords := (VFloat (fst c), VFloat (snd c)).

(** [add_user]; [now] is the formatted clock reading. *)
Definition add_user (user : dict) (now : string) (s : store) : store :=
  let user := Py.set "id" (VInt (next_id (users s))) user in
  let user := Py.set "registered_on" (VStr now) user in
  let located :=
    if Py.truthy (Py.get user "property_address") then
      match geocode_address (Py.get user "property_address") with
      | Some c => geocoded c
      | None => CANTILAN_CENTER
      end
    else CANTILAN_CENTER in
  let user := Py.set "latitude" (fst located) user in
  let user := Py.set "longitude" (snd located) user in
  with_users (users s ++ [user]) s.

(** [log_sos] *)
Definition log_sos (user_id user_name lat lon note category : value)
    (now : string) (s : store) : store :=
  let sos_record :=
    [ ("id", VInt (next_id (sos_logs s)));
      ("user_id", user_id);
      ("user_name", user_name);
      ("timestamp", VStr now);
      ("lat", lat);
      ("lon", lon);
      ("note", note);
      ("handled", VBool false);
      ("category", category);
      ("address", VStr (get_address_from_coords lat lon)) ] in
  with_sos_logs (sos_logs s ++ [sos_record]) s.

(** [add_report] *)
Definition add_report (reporter_id reporter_name category description
    lat lon : value) (now : string) (s : store) : store :=
  let report :=
    [ ("id", VInt (next_id (reports s)));
      ("reporter_id", reporter_id);
      ("reporter_name", reporter_name);
      ("timestamp", VStr now);
      ("category", category);
      ("description", description);
      ("lat", lat);
      ("lon", lon);
      ("address", VStr (get_address_from_coords lat lon)) ] in
  with_reports (reports s ++ [report]) s.

(** One round of the loop of [get_hotline_coordinates]. *)
Definition cache_hotline (m : gmap string coords) (h : hotline)
  : gmap string coords :=
  match m !! Address h with
  | Some _ => m
  | None =>
      match geocode_address (VStr (Address h)) with
      | Some c => <[Address h := geocoded c]> m
      | None => <[Address h := CANTILAN_CENTER]> m
      end
  end.

(** [get_hotline_coordinates]: fills the cache when it is empty. *)
Definition get_hotline_coordinates (s : store) : store * gmap string coords :=
  if bool_decide (hotline_coordinates s = ∅) then
    let m := fold_left cache_hotline HOTLINES (hotline_coordinates s) in
    (with_hotline_coordinates m s, m)
  else (s, hotline_coordinates s).

(** *** Citizen dashboard: nearest responder *)

(** [distance and distance < min_distance]; [min_distance] starts at
    [float('inf')], which is [None] here. *)
Definition closer (d : distance) (min_distance : distance) : bool :=
  match d with
  | Some x => negb (Qeq_bool x 0) && key_lt (Some x) min_distance
  | None => false
  end.

(** One round of the scan; the accumulator is
    [(min_distance, nearest_hotline)]. *)
Definition nearest_step (user_coords : coords) (hc : gmap string coords)
    (acc : distance * option hotline) (h : hotline)
  : distance * option hotline :=
  match hc !! Address h with
  | Some c =>
      let d := get_distance user_coords c in
      if closer d (fst acc) then (d, Some h) else acc
  | None => acc
  end.

(** The scan over the table, and the final test
    [nearest_hotline and min_distance != float('inf')]. *)
Definition nearest_hotline (user_coords : coords) (hc : gmap string coords)
    (table : list hotline) : option (hotline * Q) :=
  match fold_left (nearest_step user_coords hc) table (None, None) with
  | (Some d, Some h) => Some (h, d)
  | _ => None
  end.

(** The block of user_dashboard that shows the nearest responder. *)
Definition user_dashboard_nearest (user : dict) (s : store)
  : store * option (hotline * Q) :=
  if Py.truthy (Py.get user "latitude") && Py.truthy (Py.get user "longitude")
  then
    let user_coords := (Py.get user "latitude", Py.get user "longitude") in
    let '(s', hotline_coords) := get_hotline_coordinates s in
    (s', nearest_hotline user_coords hotline_coords HOTLINES)
  else (s, None).

(** The "SEND EMERGENCY ALERT" button of user_dashboard; [temp_coords] is
    the session's [temp_emergency_coords], set by an earlier successful
    geocoding. *)
Definition send_emergency_alert (user : dict) (use_registered : bool)
    (temp_coords : option coords) (note category : string) (now : string)
    (s : store) : store * list notice :=
  let send lat lon :=
    (log_sos (Py.get user "id")
       (Py.or_ (Py.get user "name") (Py.get user "username"))
       lat lon (VStr note) (Py.or_ (VStr category) VNone) now s,
     [Error "EMERGENCY ALERT SENT! Help is on the way."]) in
  if use_registered then
    send (Py.get user "latitude") (Py.get user "longitude")
  else
    match temp_coords with
    | Some (lat, lon) => send lat lon
    | None => (s, [Error "Please locate your current address first!"])
    end.

(** *** Responder dashboard: triage *)

(** The loop that pairs every row with its distance. *)
Definition alerts_with_distance (user : dict) (rows : list dict)
  : list (dict * distance) :=
  let responder_coords := (Py.get user "latitude", Py.get user "longitude") in
  map (fun alert =>
         (alert,
          get_distance responder_coords (Py.get alert "lat", Py.get alert "lon")))
    rows.

(** [alerts_with_distance.sort(key=...)] *)
Definition rank_alerts (user : dict) (rows : list dict) : list (dict * distance) :=
  list_sort (fun x y => key_lt (snd x) (snd y)) (alerts_with_distance user rows).

(** [alert_tuple[0].get('handled', False)] as a condition *)
Definition is_handled (alert_tuple : dict * distance) : bool :=
  Py.truthy (Py.get_default (fst alert_tuple) "handled" (VBool false)).

Definition unresolved_alerts (ranked : list (dict * distance)) :=
  List.filter (fun alert_tuple => negb (is_handled alert_tuple)) ranked.

Definition resolved_alerts (ranked : list (dict * distance)) :=
  List.filter is_handled ranked.

(** The triage of the "Active Emergencies" block of rescuer_dashboard, up
    to the two list comprehensions: [None] when there is no alert, otherwise
    the unresolved and the resolved lists.  What the page then draws from
    them is [rescuer_dashboard_emergencies]. *)
Definition rescuer_dashboard (user : dict) (s : store)
  : store * option (list (dict * distance) * list (dict * distance)) :=
  let s' := get_active_sos s in
  match sos_logs s' with
  | [] => (s', None)
  | rows =>
      let ranked := rank_alerts user rows in
      (s', Some (unresolved_alerts ranked, resolved_alerts ranked))
  end.

(** *** Official dashboard: report form *)

Definition is_none (v : value) : bool :=
  match v with VNone => true | _ => false end.

(** The submit branch of [gov_report_form]; [incident_lat] and
    [incident_lon] are the session's values ([VNone] when unset). *)
Definition submit_report (user : dict) (category description
    incident_address : string) (incident_lat incident_lon : value)
    (now : string) (s : store) : store * list notice :=
  if negb (Py.truthy (VStr description) && Py.truthy (VStr incident_address))
  then (s, [Error "Please provide description and incident address."])
  else
    let located :=
      if is_none incident_lat || is_none incident_lon then
        option_map geocoded (geocode_address (VStr incident_address))
      else Some (incident_lat, incident_lon) in
    match located with
    | Some (final_lat, final_lon) =>
        (add_report (Py.get user "id")
           (Py.or_ (Py.get user "name") (Py.get user "username"))
           (VStr category) (VStr description) final_lat final_lon now s,
         [Success "Official report submitted and logged."])
    | None =>
        (s, [Error "Could not locate the incident address. Please try a more specific location."])
    end.

(** *** The store as a transition system *)

Inductive op : Type :=
  | AddUser (user : dict) (now : string)
  | DeleteUser (user_id : Z)
  | LogSos (user_id user_name lat lon note category : value) (now : string)
  | GetActiveSos
  | MarkSosHandled (sos_id : Z)
  | AddReport (reporter_id reporter_name category description lat lon : value)
      (now : string)
  | GetHotlineCoordinates.

Definition step (o : op) (s : store) : store :=
  match o with
  | AddUser user now => add_user user now s
  | DeleteUser user_id => delete_user_by_id user_id s
  | LogSos user_id user_name lat lon note category now =>
      log_sos user_id user_name lat lon note category now s
  | GetActiveSos => get_active_sos s
  | MarkSosHandled sos_id => mark_sos_handled sos_id s
  | AddReport reporter_id reporter_name category description lat lon now =>
      add_report reporter_id reporter_name category description lat lon now s
  | GetHotlineCoordinates => fst (get_hotline_coordinates s)
  end.

(** The state after running [ops] from [s], first operation first. *)
Definition run (ops : list op) (s : store) : store :=
  fold_left (fun s o => step o s) ops s.

(** The states of a session. *)
Inductive reachable : store -> Prop :=
  | reachable_init : reachable initial_store
  | reachable_step o s : reachable s -> reachable (step o s).


End Services.

(** ** Sample records *)

(** The record that page_signup_user builds, with the widgets it does not
    require left at their defaults. *)
Definition citizen_form (username password name mobile property_address : string)
  : dict :=
  [ ("role", VStr "user");
    ("username", VStr username);
    ("password", VStr password);
    ("name", VStr name);
    ("age", VInt 30);
    ("gender", VStr "Male");
    ("mobile", VStr mobile);
    ("position", VNone);
    ("work", VStr "");
    ("family_members", VInt 1);
    ("property_address", VStr property_address);
    ("specific_address", VStr "");
    ("property_size", VStr "");
    ("year_residency", VInt 2020);
    ("specialization", VNone);
    ("equipment", VNone);
    ("department", VNone);
    ("clearance_level", VNone);
    ("admin_privileges", VNone) ].

(** The record that page_signup_admin builds. *)
Definition admin_form (username password name mobile position department : string)
  : dict :=
  [ ("role", VStr "admin");
    ("username", VStr username);
    ("password", VStr password);
    ("name", VStr name);
    ("age", VNone);
    ("gender", VNone);
    ("mobile", VStr mobile);
    ("position", VStr position);
    ("work", VStr "");
    ("family_members", VNone);
    ("property_address", VStr "");
    ("specific_address", VNone);
    ("property_size", VNone);
    ("year_residency", VNone);
    ("specialization", VNone);
    ("equipment", VNone);
    ("department", VStr department);
    ("clearance_level", VStr "Level 1");
    ("admin_privileges", VStr "Full") ].

(** A session in which the geocoding provider is down. *)
Definition offline_run : list op -> store -> store :=
  run geocoder_down address_not_found.

Definition form_alice : dict :=
  admin_form "alice" "root" "Alice" "0917-000-0001" "IT Admin" "MIS".
Definition form_bob : dict :=
  citizen_form "bob" "secret" "Bob" "0917-000-0002" "Poblacion, Cantilan".
Definition form_carol : dict :=
  citizen_form "carol" "pw" "Carol" "0917-000-0003" "Magosilom, Cantilan".
Definition form_dave : dict :=
  citizen_form "dave" "1234" "Dave" "0917-000-0004" "Linintian, Cantilan".

(** Alice, Bob and Carol have signed up. *)
Definition three_users : store :=
  offline_run [ AddUser form_alice "2024-01-01 08:00:00";
                AddUser form_bob "2024-01-01 09:00:00";
                AddUser form_carol "2024-01-01 10:00:00" ] initial_store.

(** The records of the store, as [add_user] left them. *)
Definition alice : dict := nth 0 (users three_users) [].
Definition bob : dict := nth 1 (users three_users) [].
Definition carol : dict := nth 2 (users three_users) [].


(** ** The handled flag over time *)

(** [sos.get('handled', False)] as a condition. *)
Definition handled_flag (sos : dict) : bool :=
  Py.truthy (Py.get_default sos "handled" (VBool false)).

(** [a'] is [a] at a later time: every field but "handled" is as it was, and
    a flag that was set is still set. *)
Definition same_alert_later (a a' : dict) : Prop :=
  (handled_flag a = true -> handled_flag a' = true)
  /\ (forall k, k <> "handled" -> Py.lookup k a' = Py.lookup k a).

(** Following the stored alerts through the operations.  Ids do not
    identify an alert (two alerts can share one), positions do: [tracked]
    lists, for the first alerts of the store, the position each of them had
    at the start.  [delete_user_by_id] is the only operation that takes
    alerts out, and its filter keeps the order; [log_sos] appends.  So the
    alerts of the start that are still stored are always the first of the
    list, and [still_stored] gives their start positions after [o]. *)
Definition still_stored (o : op) (s : store) (tracked : list nat) : list nat :=
  match o with
  | DeleteUser user_id =>
      map fst
        (List.filter
           (fun p => Py.neqb (Py.get (snd p) "user_id") (VInt user_id))
           (combine tracked (sos_logs s)))
  | _ => tracked
  end.

Fixpoint track (geo : value -> option (Q * Q)) (rev : value -> value -> string)
    (ops : list op) (s : store) (tracked : list nat) : list nat :=
  match ops with
  | [] => tracked
  | o :: ops' => track geo rev ops' (step geo rev o s) (still_stored o s tracked)
  end.

(** After [ops] from [s]: entry [j] is the position that the alert now
    stored at position [j] had in [s], for every alert that was already
    stored in [s]. *)
Definition origins (geo : value -> option (Q * Q))
    (rev : value -> value -> string) (ops : list op) (s : store) : list nat :=
  track geo rev ops s (seq 0 (length (sos_logs s))).

(** [o] deletes the user who sent [sos]. *)
Definition deletes_sender (o : op) (sos : dict) : bool :=
  match o with
  | DeleteUser user_id => Py.eqb (Py.get sos "user_id") (VInt user_id)
  | _ => false
  end.

(** The alerts listed in [tracked] are in [now], each at the position of
    its entry, as a later state of the alert it was in [start]. *)
Definition tracked_ok (start : list dict) (tracked : list nat) (now : list dict)
  : Prop :=
  forall j i, tracked !! j = Some i ->
    exists a a', start !! i = Some a /\ now !! j = Some a'
                 /\ same_alert_later a a'.

(** Two alerts were sent, the first has been handled. *)
Definition two_alerts : store :=
  offline_run [ LogSos (VInt 2) (VStr "Bob") (VFloat (934 # 100))
                  (VFloat (12598 # 100)) (VStr "flood") (VStr "Flood")
                  "2024-01-02 08:00:00";
                LogSos (VInt 3) (VStr "Carol") (VFloat (933 # 100))
                  (VFloat (12597 # 100)) (VStr "") VNone
                  "2024-01-02 09:00:00";
                MarkSosHandled 1 ] three_users.

(** ** Identifiers *)

(** The "id" column of a collection. *)
Definition ids (records : list dict) : list value :=
  map (fun r => Py.get r "id") records.

(** Every record carries an integer id that is at least 1. *)
Definition ids_positive (records : list dict) : Prop :=
  Forall (fun r => exists n, Py.get r "id" = VInt n /\ 0 < n) records.

(** Alice, Bob and Carol sign up, Alice deletes Bob's account, then Dave
    signs up. *)
Definition signup_after_delete : list op :=
  [ AddUser form_alice "2024-01-01 08:00:00";
    AddUser form_bob "2024-01-01 09:00:00";
    AddUser form_carol "2024-01-01 10:00:00";
    DeleteUser 2;
    AddUser form_dave "2024-01-03 08:00:00" ].

(** The three sign up, Bob and Carol each send an alert, Alice deletes
    Bob's account, Carol sends another alert. *)
Definition alert_after_delete : list op :=
  [ AddUser form_alice "2024-01-01 08:00:00";
    AddUser form_bob "2024-01-01 09:00:00";
    AddUser form_carol "2024-01-01 10:00:00";
    LogSos (VInt 2) (VStr "Bob") (VFloat (934 # 100)) (VFloat (12598 # 100))
      (VStr "flood") (VStr "Flood") "2024-01-02 08:00:00";
    LogSos (VInt 3) (VStr "Carol") (VFloat (933 # 100)) (VFloat (12597 # 100))
      (VStr "") VNone "2024-01-02 09:00:00";
    DeleteUser 2;
    LogSos (VInt 3) (VStr "Carol") (VFloat (933 # 100)) (VFloat (12597 # 100))
      (VStr "fire") (VStr "Fire") "2024-01-03 09:00:00" ].

(** ** Nearest responder: what the scan considers *)

(** The distance the scan computes for a hotline, if its address is in the
    coordinate cache. *)
Definition hotline_distance (dist : coords -> coords -> distance)
    (user_coords : coords) (hc : gmap string coords) (h : hotline) : distance :=
  match hc !! Address h with
  | Some c => dist user_coords c
  | None => None
  end.

(** The scan can only ever pick a hotline whose distance is known and is
    not zero. *)
Definition eligible (dist : coords -> coords -> distance)
    (user_coords : coords) (hc : gmap string coords) (h : hotline) : bool :=
  match hotline_distance dist user_coords hc h with
  | Some x => negb (Qeq_bool x 0)
  | None => false
  end.

(** The accumulator of the scan is either still the initial one or holds a distance
    and a hotline. *)
Definition scan_state_ok (acc : distance * option hotline) : Prop :=
  acc = (None, None) \/ exists d h, acc = (Some d, Some h).

(** Bob's coordinates, as [user_dashboard] reads them. *)
Definition bob_coords : coords := (Py.get bob "latitude", Py.get bob "longitude").

(** A cache in which the fire station is where Bob is and the municipal
    hall and the health centre are a little to the north. *)
Definition hall_coords : coords := (VFloat (9340 # 1000), VFloat (1259769 # 10000)).
Definition health_coords : coords := (VFloat (9350 # 1000), VFloat (1259769 # 10000)).

Definition cache_near_bob : gmap string coords :=
  <["Brgy. Center, Cantilan, Surigao del Sur" := bob_coords]>
  (<["Municipal Hall, Cantilan, Surigao del Sur" := hall_coords]>
  (<["Health Center, Cantilan, Surigao del Sur" := health_coords]> ∅)).

Definition police_station : hotline := nth 1 HOTLINES (mkHotline "" "" "").

(** ** Geocoding fallbacks *)

(** What a call site that falls back stores for an address: the geocoded
    point, or the town centre. *)
Definition geocode_or_center (geo : value -> option (Q * Q)) (address : value)
  : coords :=
  match geo address with
  | Some c => geocoded c
  | None => CANTILAN_CENTER
  end.

(** The record that page_signup_government builds. *)
Definition official_form (username password name mobile position department
    office_address : string) : dict :=
  [ ("role", VStr "government");
    ("username", VStr username);
    ("password", VStr password);
    ("name", VStr name);
    ("age", VNone);
    ("gender", VNone);
    ("mobile", VStr mobile);
    ("position", VStr position);
    ("work", VStr "");
    ("family_members", VNone);
    ("property_address", VStr office_address);
    ("specific_address", VNone);
    ("property_size", VNone);
    ("year_residency", VNone);
    ("specialization", VStr "");
    ("equipment", VNone);
    ("department", VStr department);
    ("clearance_level", VStr "Level 1");
    ("admin_privileges", VNone) ].

Definition form_gina : dict :=
  official_form "gina" "gov" "Gina" "0917-000-0005" "Mayor" "LGU"
    "Municipal Hall, Cantilan".

(** Gina, an official, has signed up after the others. *)
Definition four_users : store :=
  offline_run [ AddUser form_gina "2024-01-01 11:00:00" ] three_users.

Definition gina : dict := nth 3 (users four_users) [].

(** ** A sample triage *)

(** Six alerts as [log_sos] stores them: 1 and 4 without coordinates, 2 and
    5 at the same place, 3 further away, 6 where the responder is; 3, 4 and
    5 are handled. *)
Definition sample_alert (id : Z) (lat lon : value) (handled : bool) : dict :=
  [ ("id", VInt id); ("user_id", VInt 2); ("user_name", VStr "Bob");
    ("timestamp", VStr "2024-01-02 08:00:00"); ("lat", lat); ("lon", lon);
    ("note", VStr ""); ("handled", VBool handled); ("category", VNone);
    ("address", VStr "Address not found") ].

Definition sample_rows : list dict :=
  [ sample_alert 1 VNone VNone false;
    sample_alert 2 (VFloat (934 # 100)) (VFloat (12598 # 100)) false;
    sample_alert 3 (VFloat (933 # 100)) (VFloat (12597 # 100)) true;
    sample_alert 4 VNone VNone true;
    sample_alert 5 (VFloat (934 # 100)) (VFloat (12598 # 100)) true;
    sample_alert 6 (VFloat (93355 # 10000)) (VFloat (1259769 # 10000)) false ].

(** ** Predicates used in the statements *)

(** The record has exactly these strings as username and password. *)
Definition credentials_match (username password : string) (user : dict) : Prop :=
  Py.get user "username" = VStr username /\ Py.get user "password" = VStr password.



(** ** The signup pages *)

(** [all([...])] over text inputs: none of them is empty. *)
Definition all_filled (fields : list string) : bool :=
  forallb (fun x => Py.truthy (VStr x)) fields.

(** A dictionary in a condition: true unless it is empty. *)
Definition dict_truthy (d : dict) : bool :=
  match d with [] => false | _ :: _ => true end.

(** [get_user_by_username(username)] as the condition of the [elif]. *)
Definition username_taken (username : string) (s : store) : bool :=
  match get_user_by_username s username with
  | Some user => dict_truthy user
  | None => false
  end.

(** The record built by page_signup_user. *)
Definition signup_user_record (username password name : string) (age : Z)
    (gender mobile work : string) (family_members : Z)
    (property_address specific_address property_size : string)
    (year_residency : Z) : dict :=
  [ ("role", VStr "user");
    ("username", VStr username);
    ("password", VStr password);
    ("name", VStr name);
    ("age", VInt age);
    ("gender", VStr gender);
    ("mobile", VStr mobile);
    ("position", VNone);
    ("work", VStr work);
    ("family_members", VInt family_members);
    ("property_address", VStr property_address);
    ("specific_address", VStr specific_address);
    ("property_size", VStr property_size);
    ("year_residency", VInt year_residency);
    ("specialization", VNone);
    ("equipment", VNone);
    ("department", VNone);
    ("clearance_level", VNone);
    ("admin_privileges", VNone) ].

(** The record built by page_signup_rescuer. *)
Definition signup_rescuer_record (username password name mobile position
    specialization work department equipment clearance_level base_address
    : string) : dict :=
  [ ("role", VStr "rescuer");
    ("username", VStr username);
    ("password", VStr password);
    ("name", VStr name);
    ("age", VNone);
    ("gender", VNone);
    ("mobile", VStr mobile);
    ("position", VStr position);
    ("work", VStr work);
    ("family_members", VNone);
    ("property_address", VStr base_address);
    ("specific_address", VNone);
    ("property_size", VNone);
    ("year_residency", VNone);
    ("specialization", VStr specialization);
    ("equipment", VStr equipment);
    ("department", VStr department);
    ("clearance_level", VStr clearance_level);
    ("admin_privileges", VNone) ].

(** The record built by page_signup_government. *)
Definition signup_government_record (username password name mobile position
    department work clearance_level specialization office_address : string)
  : dict :=
  [ ("role", VStr "government");
    ("username", VStr username);
    ("password", VStr password);
    ("name", VStr name);
    ("age", VNone);
    ("gender", VNone);
    ("mobile", VStr mobile);
    ("position", VStr position);
    ("work", VStr work);
    ("family_members", VNone);
    ("property_address", VStr office_address);
    ("specific_address", VNone);
    ("property_size", VNone);
    ("year_residency", VNone);
    ("specialization", VStr specialization);
    ("equipment", VNone);
    ("department", VStr department);
    ("clearance_level", VStr clearance_level);
    ("admin_privileges", VNone) ].

(** The record built by page_signup_admin. *)
Definition signup_admin_record (username password name mobile admin_privileges
    position department work clearance_level office_address : string) : dict :=
  [ ("role", VStr "admin");
    ("username", VStr username);
    ("password", VStr password);
    ("name", VStr name);
    ("age", VNone);
    ("gender", VNone);
    ("mobile", VStr mobile);
    ("position", VStr position);
    ("work", VStr work);
    ("family_members", VNone);
    ("property_address", VStr office_address);
    ("specific_address", VNone);
    ("property_size", VNone);
    ("year_residency", VNone);
    ("specialization", VNone);
    ("equipment", VNone);
    ("department", VStr department);
    ("clearance_level", VStr clearance_level);
    ("admin_privileges", VStr admin_privileges) ].

Section SignupPages.

Variable geocode_address : value -> option (Q * Q).

(** The submit branch of page_signup_user. *)
Definition page_signup_user (username password name : string) (age : Z)
    (gender mobile work : string) (family_members : Z)
    (property_address specific_address property_size : string)
    (year_residency : Z) (now : string) (s : store) : store * list notice :=
  if negb (all_filled [username; password; name; mobile; property_address])
  then (s, [Error "Please fill all required fields (*)"])
  else if username_taken username s
  then (s, [Error "Username already exists. Pick another."])
  else
    (add_user geocode_address
       (signup_user_record username password name age gender mobile work
          family_members property_address specific_address property_size
          year_residency) now s,
     [Success "Citizen account created successfully! You can now log in."]).

(** The submit branch of page_signup_rescuer. *)
Definition page_signup_rescuer (username password name mobile position
    specialization work department equipment clearance_level base_address
    : string) (now : string) (s : store) : store * list notice :=
  if negb (all_filled [username; password; name; mobile; position; work;
                       base_address])
  then (s, [Error "Please fill all required fields (*)"])
  else if username_taken username s
  then (s, [Error "Username already exists. Pick another."])
  else
    (add_user geocode_address
       (signup_rescuer_record username password name mobile position
          specialization work department equipment clearance_level
          base_address) now s,
     [Success "Responder account created successfully! You can now log in."]).

(** The submit branch of page_signup_government. *)
Definition page_signup_government (username password name mobile position
    department work clearance_level specialization office_address : string)
    (now : string) (s : store) : store * list notice :=
  if negb (all_filled [username; password; name; mobile; position; department;
                       office_address])
  then (s, [Error "Please fill all required fields (*)"])
  else if username_taken username s
  then (s, [Error "Username already exists. Pick another."])
  else
    (add_user geocode_address
       (signup_government_record username password name mobile position
          department work clearance_level specialization office_address) now s,
     [Success "Government account created successfully! You can now log in."]).

(** The submit branch of page_signup_admin. *)
Definition page_signup_admin (username password name mobile admin_privileges
    position department work clearance_level verification_code
    confirm_password office_address : string) (now : string) (s : store)
  : store * list notice :=
  if negb (all_filled [username; password; name; mobile; position; department;
                       verification_code])
  then (s, [Error "Please fill all required fields (*)"])
  else if negb (String.eqb password confirm_password)
  then (s, [Error "Passwords do not match!"])
  else if username_taken username s
  then (s, [Error "Username already exists. Pick another."])
  else if negb (String.eqb verification_code "admin")
  then (s, [Error "Invalid verification code. Contact system administrator."])
  else
    (add_user geocode_address
       (signup_admin_record username password name mobile admin_privileges
          position department work clearance_level office_address) now s,
     [Success "Administrator account created successfully! You can now log in."]).

(** The "Re-geocode My Address" button of user_dashboard, on the record of
    the logged-in user. *)
Definition regeocode_record (user : dict) : dict * list notice :=
  if Py.truthy (Py.get user "property_address") then
    match geocode_address (Py.get user "property_address") with
    | Some c =>
        (Py.set "longitude" (VFloat (snd c))
           (Py.set "latitude" (VFloat (fst c)) user),
         [Success "Location updated from your address!"])
    | None =>
        (user, [Error "Could not locate your address. Please update your address details."])
    end
  else (user, []).

(** The same button on the store: the logged-in user is the record at
    position [i] of the users (the very object, so the list sees the
    update). *)
Definition regeocode_my_address (i : nat) (s : store) : store * list notice :=
  match users s !! i with
  | Some user =>
      let '(user', shown) := regeocode_record user in
      (with_users (<[i := user']> (users s)) s, shown)
  | None => (s, [])
  end.

End SignupPages.

(** ** Sessions that register through the signup pages *)

(** The operations of the store other than a bare [add_user]. *)
Definition is_add_user (o : op) : bool :=
  match o with AddUser _ _ => true | _ => false end.

Definition is_delete_user (o : op) : bool :=
  match o with DeleteUser _ => true | _ => false end.

(** The states of a session in which accounts are only created by the four
    signup pages. *)
Inductive session (geo : value -> option (Q * Q))
    (rev : value -> value -> string) : store -> Prop :=
  | session_init : session geo rev initial_store
  | session_signup_user username password name age gender mobile work
      family_members property_address specific_address property_size
      year_residency now s :
      session geo rev s ->
      session geo rev
        (fst (page_signup_user geo username password name age gender mobile
                work family_members property_address specific_address
                property_size year_residency now s))
  | session_signup_rescuer username password name mobile position
      specialization work department equipment clearance_level base_address
      now s :
      session geo rev s ->
      session geo rev
        (fst (page_signup_rescuer geo username password name mobile position
                specialization work department equipment clearance_level
                base_address now s))
  | session_signup_government username password name mobile position
      department work clearance_level specialization office_address now s :
      session geo rev s ->
      session geo rev
        (fst (page_signup_government geo username password name mobile
                position department work clearance_level specialization
                office_address now s))
  | session_signup_admin username password name mobile admin_privileges
      position department work clearance_level verification_code
      confirm_password office_address now s :
      session geo rev s ->
      session geo rev
        (fst (page_signup_admin geo username password name mobile
                admin_privileges position department work clearance_level
                verification_code confirm_password office_address now s))
  | session_regeocode i s :
      session geo rev s ->
      session geo rev (fst (regeocode_my_address geo i s))
  | session_step o s :
      session geo rev s -> is_add_user o = false ->
      session geo rev (step geo rev o s).

(** The "username" column of the users. *)
Definition usernames (s : store) : list value :=
  map (fun user => Py.get user "username") (users s).

(** The keys of every record that went through a signup page and
    [add_user]. *)
Definition USER_COLUMNS : list string :=
  [ "role"; "username"; "password"; "name"; "age"; "gender"; "mobile";
    "position"; "work"; "family_members"; "property_address";
    "specific_address"; "property_size"; "year_residency"; "specialization";
    "equipment"; "department"; "clearance_level"; "admin_privileges";
    "id"; "registered_on"; "latitude"; "longitude" ].

(** [df_users['role'].value_counts().get(role, 0)] *)
Definition role_count (role : string) (s : store) : nat :=
  length (List.filter (fun user => Py.eqb (Py.get user "role") (VStr role))
            (users s)).

(** ** Counters and tables of the dashboards *)

(** [row['handled'] == False] on a row of the alerts DataFrame; a record
    without the key gives a NaN cell, which is not equal to [False]. *)
Definition handled_is_false (sos : dict) : bool :=
  match Py.lookup "handled" sos with
  | Some v => Py.eqb v (VBool false)
  | None => false
  end.

(** The "Active Alerts" metric of page_home and admin_dashboard. *)
Definition active_alerts (s : store) : store * nat :=
  let s' := get_active_sos s in
  match sos_logs s' with
  | [] => (s', 0%nat)
  | rows =>
      if existsb (Py.mem "handled") rows
      then (s', length (List.filter handled_is_false rows))
      else (s', 0%nat)
  end.

(** The "Complete User Registry" table of admin_dashboard: every column of
    the users DataFrame except "password". *)
Definition complete_user_registry (s : store) : option csv :=
  match users s with
  | [] => None
  | _ :: _ =>
      let columns_to_show :=
        List.filter (fun col => negb (String.eqb col "password"))
          (df_columns (users s)) in
      match columns_to_show with
      | [] => None
      | _ :: _ =>
          Some {| header := columns_to_show;
                  body := map (fun r => map (fun c => Py.lookup c r)
                                          columns_to_show) (users s) |}
      end
  end.

(** [1, 2, ..., n] as ids. *)
Definition id_range (n : nat) : list value :=
  map (fun i => VInt (Z.of_nat i)) (seq 1 n).

(** Every alert has a "handled" entry, and it is a boolean. *)
Definition handled_is_bool (sos : dict) : Prop :=
  exists b, Py.lookup "handled" sos = Some (VBool b).

(** ** What the signup pages accept *)

Definition citizen_accepted (username password name mobile property_address
    : string) (s : store) : bool :=
  all_filled [username; password; name; mobile; property_address]
  && negb (username_taken username s).

Definition rescuer_accepted (username password name mobile position work
    base_address : string) (s : store) : bool :=
  all_filled [username; password; name; mobile; position; work; base_address]
  && negb (username_taken username s).

Definition government_accepted (username password name mobile position
    department office_address : string) (s : store) : bool :=
  all_filled [username; password; name; mobile; position; department;
              office_address]
  && negb (username_taken username s).

Definition admin_accepted (username password name mobile position department
    verification_code confirm_password : string) (s : store) : bool :=
  all_filled [username; password; name; mobile; position; department;
              verification_code]
  && String.eqb password confirm_password
  && negb (username_taken username s)
  && String.eqb verification_code "admin".

(** What a submitted signup form does: when it is accepted, the form's
    record goes through [add_user] and a success message is shown; when it
    is not, the store stays as it is and one error is shown. *)
Definition signup_effect (geo : value -> option (Q * Q)) (accepted : bool)
    (record : dict) (now : string) (s : store)
    (result : store * list notice) : Prop :=
  if accepted then
    exists msg, result = (add_user geo record now s, [Success msg])
  else exists msg, result = (s, [Error msg]).

(** A record as the signup pages and [add_user] leave it. *)
Definition user_ok (user : dict) : Prop :=
  Py.keys user = USER_COLUMNS
  /\ (exists name, Py.get user "username" = VStr name /\ name <> "")
  /\ (exists password, Py.get user "password" = VStr password /\ password <> "")
  /\ (exists role, Py.get user "role" = VStr role
                   /\ In role ["user"; "rescuer"; "government"; "admin"])
  /\ (exists n, Py.get user "id" = VInt n /\ 0 < n).

(** Alice signs up as administrator, then Bob as citizen, on the pages. *)
Definition registered_two : store :=
  fst (page_signup_user geocoder_down "bob" "secret" "Bob" 30 "Male"
         "0917-000-0002" "" 1 "Poblacion, Cantilan" "" "" 2020
         "2024-01-01 09:00:00"
         (fst (page_signup_admin geocoder_down "alice" "root" "Alice"
                 "0917-000-0001" "Full System Admin" "IT Admin" "MIS" ""
                 "Full Access" "admin" "root" "" "2024-01-01 08:00:00"
                 initial_store))).

(** The ids of a collection are 1, 2, ..., in this order. *)
Definition ids_sequential (records : list dict) : Prop :=
  ids records = id_range (length records).

(** Gina files a report. *)
Definition one_report : store :=
  offline_run [ AddReport (VInt 4) (VStr "Gina") (VStr "Flood")
                  (VStr "River overflow") (VFloat (934 # 100))
                  (VFloat (12598 # 100)) "2024-01-04 08:00:00" ] four_users.

(** The session in which two alerts end up with id 2. *)
Definition colliding_alerts : store :=
  offline_run alert_after_delete initial_store.

(** ** The geopy wrappers *)

(** What a call of the geocoding service does: it finds a location, it
    returns nothing, or it raises (with the text of the exception). *)
Inductive answer (A : Type) : Type :=
  | Found (location : A)
  | NotFound
  | Raised (e : string).

Arguments Found {A} location.
Arguments NotFound {A}.
Arguments Raised {A} e.

(** The service failed or found nothing. *)
Definition failed {A : Type} (a : answer A) : Prop :=
  match a with Found _ => False | NotFound | Raised _ => True end.

(** [geocode_address]; [geocode] is [geolocator.geocode] on the query built
    from the address.  The value returned, and what the [except] branch
    shows. *)
Definition geocode_address (geocode : value -> answer (Q * Q)) (address : value)
  : option (Q * Q) * list notice :=
  match geocode address with
  | Found location => (Some location, [])
  | NotFound => (None, [])
  | Raised e => (None, [Error (String.append "Geocoding error: " e)])
  end.

(** [get_address_from_coords]; [reverse] is [geolocator.reverse] on the
    query built from the coordinates. *)
Definition get_address_from_coords (reverse : value -> value -> answer string)
    (lat lon : value) : string :=
  match reverse lat lon with
  | Found address => address
  | NotFound => "Address not found"
  | Raised e => String.append "Error getting address: " e
  end.

(** The "Locate This Address" button of user_dashboard, drawn when an
    address has been typed in; [temp_coords] is the session's
    [temp_emergency_coords], which only this button writes. *)
Definition locate_this_address (geo : value -> option (Q * Q))
    (rev : value -> value -> string) (current_address : string)
    (temp_coords : option coords) : option coords * list notice :=
  if Py.truthy (VStr current_address) then
    match geo (VStr current_address) with
    | Some c =>
        (Some (geocoded c),
         [Success (String.append "Location set: "
                     (rev (VFloat (fst c)) (VFloat (snd c))))])
    | None =>
        (temp_coords,
         [Error "Address not found. Please try a more specific location."])
    end
  else (temp_coords, []).

(** The "Geocode Incident Address" button of government_dashboard;
    [incident_lat] and [incident_lon] are the session's values. *)
Definition geocode_incident_address (geo : value -> option (Q * Q))
    (rev : value -> value -> string) (incident_address : string)
    (incident_lat incident_lon : value) : (value * value) * list notice :=
  if Py.truthy (VStr incident_address) then
    match geo (VStr incident_address) with
    | Some c =>
        (geocoded c,
         [Success (String.append "Incident located: "
                     (rev (VFloat (fst c)) (VFloat (snd c))))])
    | None =>
        ((incident_lat, incident_lon),
         [Error "Address not found. Please try a more specific location."])
    end
  else ((incident_lat, incident_lon),
        [Warning "Please enter an incident address first."]).

(** A geocoding service that times out, and a reverse lookup that finds
    nothing. *)
Definition geocode_times_out : value -> answer (Q * Q) :=
  fun _ => Raised "Service timed out".

Definition reverse_finds_nothing : value -> value -> answer string :=
  fun _ _ => NotFound.

(** ** The responder's page: drawing the emergencies *)






(** ** Facts about Python values and dictionaries *)

Lemma py_eqb_str (v : value) (s : string) :
  Py.eqb v (VStr s) = true <-> v = VStr s.
Proof.
  destruct v as [| b | z | q | t]; simpl; try (split; congruence).
  rewrite String.eqb_eq. split; congruence.
Qed.

Lemma py_eqb_int (a b : Z) : Py.eqb (VInt a) (VInt b) = Z.eqb a b.
Proof.
  simpl. destruct (Z.eqb_spec a b) as [->|Hne].
  - apply Qeq_bool_iff. reflexivity.
  - destruct (Qeq_bool (inject_Z a) (inject_Z b)) eqn:E; [|reflexivity].
    apply Qeq_bool_iff in E. unfold Qeq in E. simpl in E. lia.
Qed.

Lemma py_eqb_sym (a b : value) : Py.eqb a b = Py.eqb b a.
Proof.
  assert (Hq : forall x y, Qeq_bool x y = Qeq_bool y x).
  { intros x y. destruct (Qeq_bool x y) eqn:E1, (Qeq_bool y x) eqn:E2; trivial.
    - apply Qeq_bool_iff in E1. symmetry in E1. apply Qeq_bool_iff in E1. congruence.
    - apply Qeq_bool_iff in E2. symmetry in E2. apply Qeq_bool_iff in E2. congruence. }
  destruct a, b; simpl; trivial; try apply Hq.
  apply String.eqb_sym.
Qed.

Lemma lookup_set_same (k : string) (v : value) (d : dict) :
  Py.lookup k (Py.set k v d) = Some v.
Proof.
  induction d as [|[k' v'] d IH]; simpl.
  - now rewrite String.eqb_refl.
  - destruct (String.eqb k' k) eqn:E; simpl; rewrite E; auto.
Qed.

Lemma lookup_set_other (k k' : string) (v : value) (d : dict) :
  k <> k' -> Py.lookup k' (Py.set k v d) = Py.lookup k' d.
Proof.
  intros Hne. induction d as [|[k0 v0] d IH]; simpl.
  - destruct (String.eqb_spec k k'); congruence.
  - destruct (String.eqb_spec k0 k) as [->|Hk]; simpl.
    + destruct (String.eqb_spec k k'); congruence.
    + now rewrite IH.
Qed.

Lemma get_set_same (k : string) (v : value) (d : dict) :
  Py.get (Py.set k v d) k = v.
Proof. unfold Py.get. now rewrite lookup_set_same. Qed.

Lemma get_set_other (k k' : string) (v : value) (d : dict) :
  k <> k' -> Py.get (Py.set k v d) k' = Py.get d k'.
Proof. intros H. unfold Py.get. now rewrite lookup_set_other. Qed.

(** Storing the value a key already has changes nothing. *)
Lemma set_same_value (k : string) (v : value) (d : dict) :
  Py.lookup k d = Some v -> Py.set k v d = d.
Proof.
  induction d as [|[k' v'] d IH]; simpl; [discriminate|].
  destruct (String.eqb k' k) eqn:E; intros H.
  - now inversion H.
  - now rewrite IH.
Qed.

Lemma set_set (k : string) (v w : value) (d : dict) :
  Py.set k w (Py.set k v d) = Py.set k w d.
Proof.
  induction d as [|[k' v'] d IH]; simpl.
  - now rewrite String.eqb_refl.
  - destruct (String.eqb k' k) eqn:E; simpl; rewrite E; [reflexivity|].
    now rewrite IH.
Qed.

(** ** Login *)

Lemma validate_login_in_some (us : list dict) (username password : string)
    (user : dict) :
  validate_login_in us username password = Some user ->
  In user us /\ credentials_match username password user.
Proof.
  induction us as [|u us IH]; simpl; [discriminate|].
  destruct (Py.eqb (Py.get u "username") (VStr username)
            && Py.eqb (Py.get u "password") (VStr password)) eqn:E.
  - intros [= <-]. apply andb_true_iff in E as [E1 E2].
    apply py_eqb_str in E1, E2. split; [now left | now split].
  - intros H. destruct (IH H) as [Hin Hm]. split; [now right | exact Hm].
Qed.

Lemma validate_login_in_none (us : list dict) (username password : string) :
  validate_login_in us username password = None <->
  forall user, In user us -> ~ credentials_match username password user.
Proof.
  induction us as [|u us IH]; simpl.
  - split; [intros _ user [] | reflexivity].
  - destruct (Py.eqb (Py.get u "username") (VStr username)
              && Py.eqb (Py.get u "password") (VStr password)) eqn:E.
    + split; [discriminate|]. intros H. exfalso. apply (H u); [now left|].
      apply andb_true_iff in E as [E1 E2]. apply py_eqb_str in E1, E2.
      now split.
    + rewrite IH. split.
      * intros H user [<-|Hin]; [|now apply H].
        intros [H1 H2]. apply py_eqb_str in H1, H2.
        rewrite H1, H2 in E. discriminate.
      * intros H user Hin. apply H. now right.
Qed.

(** C7: [validate_login] returns a record exactly when the store holds a
    user whose username and password are both the very strings given, the
    record returned is such a user of the store, and it returns [None] when
    no user matches; on the sample store, bob/wrongpass gives [None] and
    bob/secret gives Bob's record. *)
Theorem validate_login_exact_match (s : store) (username password : string) :
  ((exists user, validate_login s username password = Some user) <->
   (exists user, In user (users s) /\ credentials_match username password user))
  /\ (forall user, validate_login s username password = Some user ->
        In user (users s) /\ credentials_match username password user)
  /\ (validate_login s username password = None <->
      forall user, In user (users s) -> ~ credentials_match username password user)
  /\ validate_login three_users "bob" "wrongpass" = None
  /\ validate_login three_users "bob" "secret" = Some bob.
Proof.
  unfold validate_login.
  split; [|split; [|split; [|split]]].
  - split.
    + intros [user H]. exists user. now apply validate_login_in_some.
    + intros [user [Hin Hm]].
      destruct (validate_login_in (users s) username password) as [u|] eqn:E.
      * now exists u.
      * exfalso. rewrite validate_login_in_none in E. exact (E user Hin Hm).
  - intros user. apply validate_login_in_some.
  - apply validate_login_in_none.
  - vm_compute. reflexivity.
  - vm_compute. reflexivity.
Qed.

(** ** Deleting a user *)



Lemma filter_sublist {A : Type} (f : A -> bool) (l : list A) :
  sublist (List.filter f l) l.
Proof.
  induction l as [|x l IH]; simpl; [constructor|].
  destruct (f x); now constructor.
Qed.

Lemma store_eq (s t : store) :
  users s = users t -> sos_logs s = sos_logs t -> reports s = reports t ->
  hotline_coordinates s = hotline_coordinates t -> s = t.
Proof. destruct s, t; simpl; congruence. Qed.




(** ** The administrator's delete action *)

(** C10: when the id typed in is the administrator's own, the action shows
    an error and returns the store as it was; and whatever id is typed in,
    the administrator's record is still among the users afterwards. *)
Theorem admin_cannot_delete_own_account (user : dict) (target : Z) (s : store) :
  (0 < target -> Py.get user "id" = VInt target ->
     admin_delete_user user target s =
       (s, [Error "You cannot delete your own account!"]))
  /\ (Py.eqb (VInt target) (Py.get user "id") = true ->
      fst (admin_delete_user user target s) = s)
  /\ (In user (users s) ->
      In user (users (fst (admin_delete_user user target s)))).
Proof.
  unfold admin_delete_user. split; [|split].
  - intros Hpos Hid. apply Z.ltb_lt in Hpos. rewrite Hpos, Hid.
    now rewrite py_eqb_int, Z.eqb_refl.
  - intros Heq. rewrite Heq. now destruct (Z.ltb 0 target).
  - intros Hin. destruct (Z.ltb 0 target); [|exact Hin].
    destruct (Py.eqb (VInt target) (Py.get user "id")) eqn:E; [exact Hin|].
    simpl. apply filter_In. split; [exact Hin|].
    unfold Py.neqb. now rewrite py_eqb_sym, E.
Qed.

(** Alice, the administrator with id 1, types 1 and then 2. *)
Lemma admin_cannot_delete_own_account_witness :
  admin_delete_user alice 1 three_users =
    (three_users, [Error "You cannot delete your own account!"])
  /\ In alice (users (fst (admin_delete_user alice 2 three_users))).
Proof.
  split.
  - apply (admin_cannot_delete_own_account alice 1 three_users); [lia|reflexivity].
  - apply (admin_cannot_delete_own_account alice 2 three_users).
    vm_compute. now left.
Defined.

(** ** The handled flag *)

Lemma same_alert_later_refl (a : dict) : same_alert_later a a.
Proof. split; auto. Qed.

Lemma same_alert_later_trans (a b c : dict) :
  same_alert_later a b -> same_alert_later b c -> same_alert_later a c.
Proof.
  intros [H1 H2] [H3 H4]. split; [auto|].
  intros k Hk. now rewrite H4, H2.
Qed.

Lemma handled_flag_set_true (sos : dict) :
  handled_flag (Py.set "handled" (VBool true) sos) = true.
Proof.
  unfold handled_flag, Py.get_default. now rewrite lookup_set_same.
Qed.

Lemma same_alert_later_set_true (sos : dict) :
  same_alert_later sos (Py.set "handled" (VBool true) sos).
Proof.
  split; [intros _; apply handled_flag_set_true|].
  intros k Hk. apply lookup_set_other. congruence.
Qed.

Lemma same_alert_later_ensure (sos : dict) :
  same_alert_later sos (ensure_handled sos).
Proof.
  unfold ensure_handled. destruct (Py.mem "handled" sos) eqn:E.
  - apply same_alert_later_refl.
  - split.
    + unfold handled_flag, Py.get_default. unfold Py.mem in E.
      destruct (Py.lookup "handled" sos); [discriminate|]. discriminate.
    + intros k Hk. apply lookup_set_other. congruence.
Qed.

Lemma get_hotline_coordinates_logs geo (s : store) :
  sos_logs (fst (get_hotline_coordinates geo s)) = sos_logs s.
Proof.
  unfold get_hotline_coordinates.
  now destruct (bool_decide (hotline_coordinates s = ∅)).
Qed.

(** What [mark_handled_in] does to the list: nothing when no alert has the
    id, otherwise it sets the flag of the first alert that has it. *)
Lemma mark_handled_in_spec (l : list dict) (sos_id : Z) :
  ((forall sos, In sos l -> Py.eqb (Py.get sos "id") (VInt sos_id) = false)
   /\ mark_handled_in l sos_id = l)
  \/ (exists before sos after,
        l = before ++ sos :: after
        /\ (forall x, In x before -> Py.eqb (Py.get x "id") (VInt sos_id) = false)
        /\ Py.eqb (Py.get sos "id") (VInt sos_id) = true
        /\ mark_handled_in l sos_id =
             before ++ Py.set "handled" (VBool true) sos :: after).
Proof.
  induction l as [|a l IH]; simpl.
  - left. split; [intros ? []|reflexivity].
  - destruct (Py.eqb (Py.get a "id") (VInt sos_id)) eqn:E.
    + right. exists [], a, l. simpl. repeat split; auto. intros ? [].
    + destruct IH as [[Hno Heq]|(before & sos & after & Hl & Hb & Hs & Hm)].
      * left. split; [|now rewrite Heq].
        intros x [<-|Hx]; auto.
      * right. exists (a :: before), sos, after. simpl.
        repeat split; auto; try congruence.
        intros x [<-|Hx]; auto.
Qed.

Lemma mark_handled_in_idem (l : list dict) (sos_id : Z) :
  mark_handled_in (mark_handled_in l sos_id) sos_id = mark_handled_in l sos_id.
Proof.
  induction l as [|a l IH]; simpl; [reflexivity|].
  destruct (Py.eqb (Py.get a "id") (VInt sos_id)) eqn:E; simpl.
  - rewrite get_set_other by congruence. rewrite E. now rewrite set_set.
  - rewrite E. now rewrite IH.
Qed.

Lemma same_alert_later_get (a a' : dict) (k : string) :
  same_alert_later a a' -> k <> "handled" -> Py.get a' k = Py.get a k.
Proof. intros [_ H] Hk. unfold Py.get. now rewrite H. Qed.

(** The alerts that the filter of [delete_user_by_id] keeps, with their
    start positions. *)
Lemma filter_combine_lookup (f : dict -> bool) (tracked : list nat)
    (l : list dict) (j i : nat) :
  map fst (List.filter (fun p => f (snd p)) (combine tracked l)) !! j = Some i ->
  exists j0 a, tracked !! j0 = Some i /\ l !! j0 = Some a
               /\ List.filter f l !! j = Some a.
Proof.
  revert l j. induction tracked as [|i0 tracked IH]; intros l j; simpl.
  - intros H. discriminate H.
  - destruct l as [|a0 l]; simpl; [intros H; discriminate H|].
    destruct (f a0) eqn:E; simpl.
    + destruct j as [|j]; simpl.
      * intros [= <-]. exists 0%nat, a0. auto.
      * intros H. destruct (IH l j H) as (j0 & a & H1 & H2 & H3).
        exists (S j0), a. auto.
    + intros H. destruct (IH l j H) as (j0 & a & H1 & H2 & H3).
      exists (S j0), a. auto.
Qed.

Lemma filter_combine_sublist (g : nat * dict -> bool) (tracked : list nat)
    (l : list dict) :
  sublist (map fst (List.filter g (combine tracked l))) tracked.
Proof.
  revert l. induction tracked as [|i0 tracked IH]; intros l; simpl.
  - constructor.
  - destruct l as [|a0 l]; simpl; [apply sublist_nil_l|].
    destruct (g (i0, a0)); simpl.
    + apply sublist_skip, IH.
    + apply sublist_cons, IH.
Qed.

Lemma filter_combine_In (f : dict -> bool) (tracked : list nat)
    (l : list dict) (j i : nat) (a : dict) :
  tracked !! j = Some i -> l !! j = Some a -> f a = true ->
  In i (map fst (List.filter (fun p => f (snd p)) (combine tracked l))).
Proof.
  revert l j. induction tracked as [|i0 tracked IH]; intros l j; simpl.
  - intros H. discriminate H.
  - destruct l as [|a0 l]; [intros _ H; discriminate H|].
    destruct j as [|j]; simpl.
    + intros [= ->] [= ->] Hf. rewrite Hf. now left.
    + intros H1 H2 Hf. destruct (f a0); [right|]; eapply IH; eassumption.
Qed.

Lemma mark_handled_in_lookup (l : list dict) (sos_id : Z) (j : nat) (a : dict) :
  l !! j = Some a ->
  exists a', mark_handled_in l sos_id !! j = Some a' /\ same_alert_later a a'.
Proof.
  revert j. induction l as [|x l IH]; intros j; [intros H; discriminate H|].
  simpl. destruct (Py.eqb (Py.get x "id") (VInt sos_id)).
  - destruct j as [|j]; simpl.
    + intros [= ->]. eexists. split; [reflexivity|].
      apply same_alert_later_set_true.
    + intros H. exists a. split; [exact H | apply same_alert_later_refl].
  - destruct j as [|j]; simpl.
    + intros [= ->]. exists a. split; [reflexivity | apply same_alert_later_refl].
    + apply IH.
Qed.

(** An operation other than a deletion keeps every alert at its position. *)
Lemma step_keeps_positions geo rev (o : op) (s : store) (j : nat) (a : dict) :
  is_delete_user o = false ->
  sos_logs s !! j = Some a ->
  exists a', sos_logs (step geo rev o s) !! j = Some a' /\ same_alert_later a a'.
Proof.
  intros Ho Hj. destruct o; try discriminate Ho; simpl.
  - exists a. split; [exact Hj | apply same_alert_later_refl].
  - exists a. split; [|apply same_alert_later_refl].
    apply lookup_app_l_Some. exact Hj.
  - exists (ensure_handled a). split; [|apply same_alert_later_ensure].
    change (map ensure_handled (sos_logs s)) with (ensure_handled <$> sos_logs s).
    now rewrite list_lookup_fmap, Hj.
  - now apply mark_handled_in_lookup.
  - exists a. split; [exact Hj | apply same_alert_later_refl].
  - rewrite get_hotline_coordinates_logs.
    exists a. split; [exact Hj | apply same_alert_later_refl].
Qed.

Lemma step_tracked_ok geo rev (o : op) (s : store) (start : list dict)
    (tracked : list nat) :
  tracked_ok start tracked (sos_logs s) ->
  tracked_ok start (still_stored o s tracked) (sos_logs (step geo rev o s)).
Proof.
  intros Hok j i Hj. destruct (is_delete_user o) eqn:Ho.
  - destruct o; try discriminate Ho. simpl in Hj |- *.
    apply (filter_combine_lookup
             (fun log => Py.neqb (Py.get log "user_id") (VInt user_id)))
      in Hj as (j0 & a' & Ht & Hl & Hf).
    destruct (Hok j0 i Ht) as (a & a'' & Ha & Ha' & Hlater).
    rewrite Hl in Ha'. injection Ha' as <-.
    exists a, a'. auto.
  - assert (Hsame : still_stored o s tracked = tracked) by (now destruct o).
    rewrite Hsame in Hj.
    destruct (Hok j i Hj) as (a & a' & Ha & Ha' & Hlater).
    destruct (step_keeps_positions geo rev o s j a' Ho Ha') as (a'' & H1 & H2).
    exists a, a''. split; [exact Ha|]. split; [exact H1|].
    eapply same_alert_later_trans; eassumption.
Qed.

Lemma track_tracked_ok geo rev (ops : list op) (s : store) (start : list dict)
    (tracked : list nat) :
  tracked_ok start tracked (sos_logs s) ->
  tracked_ok start (track geo rev ops s tracked) (sos_logs (run geo rev ops s)).
Proof.
  revert s tracked. induction ops as [|o ops IH]; intros s tracked Hok; simpl.
  - exact Hok.
  - apply IH. now apply step_tracked_ok.
Qed.

Lemma tracked_ok_start (l : list dict) : tracked_ok l (seq 0 (length l)) l.
Proof.
  intros j i Hj. apply lookup_seq in Hj as [-> Hlt]. simpl.
  destruct (lookup_lt_is_Some_2 l j Hlt) as [a Ha].
  exists a, a. split; [exact Ha|]. split; [exact Ha | apply same_alert_later_refl].
Qed.

Lemma track_sublist geo rev (ops : list op) (s : store) (tracked : list nat) :
  sublist (track geo rev ops s tracked) tracked.
Proof.
  revert s tracked. induction ops as [|o ops IH]; intros s tracked; simpl.
  - reflexivity.
  - etransitivity; [apply IH|].
    destruct o; simpl; try reflexivity. apply filter_combine_sublist.
Qed.

Lemma track_keeps geo rev (ops : list op) (s : store) (start : list dict)
    (tracked : list nat) (i : nat) (a : dict) :
  tracked_ok start tracked (sos_logs s) ->
  start !! i = Some a ->
  (forall o, In o ops -> deletes_sender o a = false) ->
  In i tracked -> In i (track geo rev ops s tracked).
Proof.
  revert s tracked. induction ops as [|o ops IH]; intros s tracked Hok Ha Hno Hin;
    simpl; [exact Hin|].
  apply IH; [now apply step_tracked_ok | exact Ha | intros o' Ho'; apply Hno; now right |].
  pose proof (Hno o (or_introl eq_refl)) as Hd.
  destruct o; simpl in *; try exact Hin.
  apply list_elem_of_In, list_elem_of_lookup in Hin as [j Hj].
  destruct (Hok j i Hj) as (a0 & a' & Ha0 & Ha' & Hlater).
  rewrite Ha in Ha0. injection Ha0 as <-.
  apply (filter_combine_In
           (fun log => Py.neqb (Py.get log "user_id") (VInt user_id))
           tracked (sos_logs s) j i a' Hj Ha').
  unfold Py.neqb. rewrite (same_alert_later_get a a' "user_id" Hlater) by discriminate.
  now rewrite Hd.
Qed.

(** When one alert only has the id, [mark_sos_handled] sets the flag of
    that alert. *)
Lemma mark_handled_in_only (l : list dict) (sos_id : Z) (i : nat) (sos : dict) :
  l !! i = Some sos ->
  Py.eqb (Py.get sos "id") (VInt sos_id) = true ->
  (forall j other, j <> i -> l !! j = Some other ->
     Py.eqb (Py.get other "id") (VInt sos_id) = false) ->
  mark_handled_in l sos_id = <[i := Py.set "handled" (VBool true) sos]> l.
Proof.
  revert i. induction l as [|x l IH]; intros i; [intros H; discriminate H|].
  destruct i as [|i]; simpl.
  - intros [= ->] Hid _. now rewrite Hid.
  - intros Hi Hid Hother.
    rewrite (Hother 0%nat x) by (try discriminate; reflexivity).
    f_equal. apply IH; [exact Hi | exact Hid |].
    intros j other Hj Hl. apply (Hother (S j) other); [congruence | exact Hl].
Qed.

Lemma run_reachable geo rev (ops : list op) (s : store) :
  reachable geo rev s -> reachable geo rev (run geo rev ops s).
Proof.
  revert s. induction ops as [|o ops IH]; intros s Hs; simpl; [exact Hs|].
  apply IH. now constructor.
Qed.

(** C9 on the code.  A call of [mark_sos_handled] sets the flag of the
    first alert that has the id and touches nothing else (no other alert, no
    other field of that alert, no user, no report); when one alert only has
    the id, that is the alert with the matching id; applying the call again
    changes nothing.  Over any sequence of operations, an alert stays stored
    unless its sender is deleted, the stored alerts keep their order, and
    each of them keeps every other field and, once handled, stays handled:
    no operation sets the flag back.  But ids are not unique: in the
    session in which two alerts end up with id 2, marking id 2 sets the flag
    of the first of them, and the second, whose id matches too, stays
    unhandled, also when the call is repeated. *)
Theorem handled_only_ever_set geo rev (sos_id : Z) (s : store) :
  let s' := mark_sos_handled sos_id s in
  (((forall sos, In sos (sos_logs s) ->
       Py.eqb (Py.get sos "id") (VInt sos_id) = false)
    /\ sos_logs s' = sos_logs s)
   \/ (exists before sos after,
         sos_logs s = before ++ sos :: after
         /\ (forall x, In x before ->
               Py.eqb (Py.get x "id") (VInt sos_id) = false)
         /\ Py.eqb (Py.get sos "id") (VInt sos_id) = true
         /\ sos_logs s' = before ++ Py.set "handled" (VBool true) sos :: after))
  /\ (forall i sos,
        sos_logs s !! i = Some sos ->
        Py.eqb (Py.get sos "id") (VInt sos_id) = true ->
        (forall j other, j <> i -> sos_logs s !! j = Some other ->
           Py.eqb (Py.get other "id") (VInt sos_id) = false) ->
        sos_logs s' = <[i := Py.set "handled" (VBool true) sos]> (sos_logs s))
  /\ (forall sos, handled_flag (Py.set "handled" (VBool true) sos) = true
        /\ forall k, k <> "handled" ->
             Py.lookup k (Py.set "handled" (VBool true) sos) = Py.lookup k sos)
  /\ users s' = users s
  /\ reports s' = reports s
  /\ hotline_coordinates s' = hotline_coordinates s
  /\ mark_sos_handled sos_id s' = s'
  /\ (forall ops j i,
        origins geo rev ops s !! j = Some i ->
        exists a a',
          sos_logs s !! i = Some a
          /\ sos_logs (run geo rev ops s) !! j = Some a'
          /\ same_alert_later a a')
  /\ (forall ops i a,
        sos_logs s !! i = Some a ->
        (forall o, In o ops -> deletes_sender o a = false) ->
        In i (origins geo rev ops s))
  /\ (forall ops,
        sublist (origins geo rev ops s) (seq 0 (length (sos_logs s))))
  /\ (reachable geocoder_down address_not_found colliding_alerts
      /\ ids (sos_logs colliding_alerts) = [VInt 2; VInt 2]
      /\ map handled_flag (sos_logs colliding_alerts) = [false; false]
      /\ map handled_flag (sos_logs (mark_sos_handled 2 colliding_alerts))
         = [true; false]
      /\ mark_sos_handled 2 (mark_sos_handled 2 colliding_alerts)
         = mark_sos_handled 2 colliding_alerts).
Proof.
  cbv zeta.
  split; [apply mark_handled_in_spec|].
  split; [intros i sos; apply mark_handled_in_only|].
  split.
  { intros sos. split; [apply handled_flag_set_true|].
    apply same_alert_later_set_true. }
  split; [reflexivity|]. split; [reflexivity|]. split; [reflexivity|].
  split.
  { unfold mark_sos_handled, with_sos_logs; simpl.
    now rewrite mark_handled_in_idem. }
  split.
  { intros ops. apply track_tracked_ok, tracked_ok_start. }
  split.
  { intros ops i a Ha Hno.
    apply (track_keeps geo rev ops s (sos_logs s) _ i a);
      [apply tracked_ok_start | exact Ha | exact Hno |].
    apply in_seq. apply lookup_lt_Some in Ha. lia. }
  split; [intros ops; apply track_sublist|].
  split.
  { unfold colliding_alerts, offline_run. apply run_reachable. constructor. }
  split; [vm_compute; reflexivity|].
  split; [vm_compute; reflexivity|].
  split; [vm_compute; reflexivity|].
  vm_compute. reflexivity.
Qed.

(** In the sample store the first alert has been handled; it is still the
    first alert, and still handled, after the second one is marked. *)
Lemma handled_only_ever_set_witness :
  exists a',
    sos_logs (mark_sos_handled 2 two_alerts) !! 0%nat = Some a'
    /\ handled_flag a' = true.
Proof.
  destruct (handled_only_ever_set geocoder_down address_not_found 2 two_alerts)
    as (_ & _ & _ & _ & _ & _ & _ & Htrack & _).
  assert (Ho : origins geocoder_down address_not_found [MarkSosHandled 2]
                 two_alerts !! 0%nat = Some 0%nat) by (vm_compute; reflexivity).
  destruct (Htrack [MarkSosHandled 2] 0%nat 0%nat Ho)
    as (a & a' & Ha & Ha' & Hlater & _).
  exists a'. split; [exact Ha'|]. apply Hlater.
  vm_compute in Ha. injection Ha as <-. reflexivity.
Defined.

(** ** Identifiers *)

Lemma ids_positive_app (l : list dict) (r : dict) (n : Z) :
  ids_positive l -> Py.get r "id" = VInt n -> 0 < n -> ids_positive (l ++ [r]).
Proof.
  intros Hl Hr Hn. apply Forall_app. split; [exact Hl|].
  constructor; [|constructor]. now exists n.
Qed.

Lemma next_id_positive (l : list dict) : 0 < next_id l.
Proof. unfold next_id. lia. Qed.

Lemma ids_positive_filter (f : dict -> bool) (l : list dict) :
  ids_positive l -> ids_positive (List.filter f l).
Proof.
  unfold ids_positive. rewrite !List.Forall_forall.
  intros H r Hr. apply filter_In in Hr. now apply H.
Qed.

Lemma ids_positive_mark (l : list dict) (sos_id : Z) :
  ids_positive l -> ids_positive (mark_handled_in l sos_id).
Proof.
  induction 1 as [|a l Ha Hl IH]; simpl; [constructor|].
  destruct (Py.eqb (Py.get a "id") (VInt sos_id)).
  - constructor; [|exact Hl]. now rewrite get_set_other by congruence.
  - now constructor.
Qed.

Lemma ids_positive_ensure (l : list dict) :
  ids_positive l -> ids_positive (map ensure_handled l).
Proof.
  induction 1 as [|a l Ha Hl IH]; simpl; constructor; [|exact IH].
  unfold ensure_handled. destruct (Py.mem "handled" a); [exact Ha|].
  now rewrite get_set_other by congruence.
Qed.

Lemma add_user_id geo (user : dict) (now : string) (s : store) :
  exists r, users (add_user geo user now s) = users s ++ [r]
            /\ Py.get r "id" = VInt (next_id (users s)).
Proof.
  unfold add_user. eexists. split; [reflexivity|].
  rewrite !get_set_other by congruence. apply get_set_same.
Qed.

(** X16: the half of the id invariant that the code keeps: in every state
    that the store operations can reach, every user, alert and report has an
    integer id of at least 1. *)
Lemma reachable_ids_positive geo rev (s : store) :
  reachable geo rev s ->
  ids_positive (users s) /\ ids_positive (sos_logs s) /\ ids_positive (reports s).
Proof.
  induction 1 as [|o s Hs (Hu & Ha & Hr)].
  - repeat split; constructor.
  - destruct o; cbn [step].
    + destruct (add_user_id geo user now s) as (r & Hus & Hid).
      split; [|split; [exact Ha | exact Hr]].
      rewrite Hus. eapply ids_positive_app; eauto using next_id_positive.
    + simpl. repeat split; auto using ids_positive_filter.
    + simpl. repeat split; auto.
      eapply ids_positive_app; eauto using next_id_positive.
    + simpl. repeat split; auto using ids_positive_ensure.
    + simpl. repeat split; auto using ids_positive_mark.
    + simpl. repeat split; auto.
      eapply ids_positive_app; eauto using next_id_positive.
    + unfold get_hotline_coordinates.
      destruct (bool_decide (hotline_coordinates s = ∅)); simpl; auto.
Qed.

(** C5 on the code, whatever the external services answer: after Alice
    (id 1) deleted Bob (id 2) the users are Alice and Carol (id 3), and Dave,
    who signs up next, gets [len(users) + 1 = 3], the id Carol has; in the
    same way a new alert gets the id of an alert that survived the cascade.
    Both states are states of a session. *)
Theorem ids_collide_after_delete geo rev :
  let s1 := run geo rev signup_after_delete initial_store in
  let s2 := run geo rev alert_after_delete initial_store in
  reachable geo rev s1
  /\ ids (users s1) = [VInt 1; VInt 3; VInt 3]
  /\ ~ NoDup (ids (users s1))
  /\ reachable geo rev s2
  /\ ids (sos_logs s2) = [VInt 2; VInt 2]
  /\ ~ NoDup (ids (sos_logs s2)).
Proof.
  cbv zeta.
  assert (H1 : ids (users (run geo rev signup_after_delete initial_store))
               = [VInt 1; VInt 3; VInt 3]) by reflexivity.
  assert (H2 : ids (sos_logs (run geo rev alert_after_delete initial_store))
               = [VInt 2; VInt 2]) by reflexivity.
  assert (Hdup : forall a b l, ~ NoDup (l ++ [VInt a; VInt a] ++ b)).
  { intros a b l H. apply NoDup_app in H as (_ & _ & H).
    apply NoDup_cons in H as [H _]. apply H. now left. }
  split; [apply run_reachable; constructor|].
  split; [exact H1|].
  split; [rewrite H1; apply (Hdup 3 [] [VInt 1])|].
  split; [apply run_reachable; constructor|].
  split; [exact H2|].
  rewrite H2. apply (Hdup 2 [] []).
Qed.

(** ** Partition by handled state *)

Lemma filter_split_perm {A : Type} (f : A -> bool) (l : list A) :
  Permutation (List.filter (fun x => negb (f x)) l ++ List.filter f l) l.
Proof.
  induction l as [|x l IH]; simpl; [constructor|].
  destruct (f x); simpl.
  - symmetry. apply Permutation_cons_app. now symmetry.
  - now constructor.
Qed.

(** C2: the unresolved and the resolved list together hold exactly the
    entries of the ranked list, each as often as it occurs there; an entry is
    in the resolved list when its alert is handled and in the unresolved list
    otherwise; and both lists keep the ranked order. *)
Theorem partition_by_handled_stable (ranked : list (dict * distance)) :
  Permutation (unresolved_alerts ranked ++ resolved_alerts ranked) ranked
  /\ sublist (unresolved_alerts ranked) ranked
  /\ sublist (resolved_alerts ranked) ranked
  /\ (forall t, In t (unresolved_alerts ranked) <->
        In t ranked /\ is_handled t = false)
  /\ (forall t, In t (resolved_alerts ranked) <->
        In t ranked /\ is_handled t = true)
  /\ (length (unresolved_alerts ranked) + length (resolved_alerts ranked)
      = length ranked)%nat.
Proof.
  unfold unresolved_alerts, resolved_alerts.
  split; [apply filter_split_perm|].
  split; [apply filter_sublist|].
  split; [apply filter_sublist|].
  split; [intros t; rewrite filter_In, negb_true_iff; reflexivity|].
  split; [intros t; apply filter_In|].
  rewrite <- length_app. apply Permutation_length, filter_split_perm.
Qed.

(** ** Ranking by distance *)

Section StableSortFacts.
Context {A : Type} (lt : A -> A -> bool).

Local Abbreviation not_after := (not_after lt).

Hypothesis lt_asym : forall a b, lt a b = true -> lt b a = false.
Hypothesis not_after_trans :
  forall a b c, not_after a b -> not_after b c -> not_after a c.

Lemma insert_before_ties_perm (x : A) (l : list A) :
  Permutation (insert_before_ties lt x l) (x :: l).
Proof.
  induction l as [|y l IH]; simpl; [reflexivity|].
  destruct (lt y x); [|reflexivity].
  rewrite IH. apply perm_swap.
Qed.

Lemma list_sort_perm (l : list A) : Permutation (list_sort lt l) l.
Proof.
  induction l as [|x l IH]; simpl; [constructor|].
  rewrite insert_before_ties_perm. now constructor.
Qed.

Lemma insert_before_ties_sorted (x : A) (l : list A) :
  StronglySorted not_after l ->
  StronglySorted not_after (insert_before_ties lt x l).
Proof.
  induction 1 as [|y l Hl IH Hy]; simpl.
  - repeat constructor.
  - destruct (lt y x) eqn:E.
    + constructor; [exact IH|].
      rewrite insert_before_ties_perm. constructor; [|exact Hy].
      apply lt_asym. exact E.
    + constructor; [now constructor|].
      constructor; [exact E|].
      eapply List.Forall_impl; [|exact Hy].
      intros z Hz. eapply not_after_trans; [exact E | exact Hz].
Qed.

Lemma list_sort_sorted (l : list A) : StronglySorted not_after (list_sort lt l).
Proof.
  induction l as [|x l IH]; simpl; [constructor|].
  now apply insert_before_ties_sorted.
Qed.

(** A class of elements that no element outside it ties with: sorting
    does not change the order inside the class. *)
Lemma list_sort_stable (P : A -> bool) (l : list A) :
  (forall x y, P x = true -> P y = true -> lt y x = false) ->
  List.filter P (list_sort lt l) = List.filter P l.
Proof.
  intros HP.
  assert (Hins : forall x m,
             List.filter P (insert_before_ties lt x m) =
             List.filter P (x :: m)).
  { intros x m. induction m as [|y m IH]; [reflexivity|].
    cbn [insert_before_ties]. destruct (lt y x) eqn:E; [|reflexivity].
    simpl in *. rewrite IH.
    destruct (P x) eqn:Px, (P y) eqn:Py; try reflexivity.
    rewrite (HP x y Px Py) in E. discriminate. }
  induction l as [|x l IH]; [reflexivity|].
  cbn [list_sort fold_right]. fold (list_sort lt l).
  rewrite Hins. simpl. now rewrite IH.
Qed.
End StableSortFacts.

Lemma key_lt_spec (a b : distance) :
  key_lt a b = true <->
  match a, b with
  | Some x, Some y => (x < y)%Q
  | Some _, None => True
  | None, _ => False
  end.
Proof.
  destruct a as [x|], b as [y|]; simpl;
    [| split; [trivial | reflexivity]
     | split; [discriminate | contradiction]
     | split; [discriminate | contradiction]].
  rewrite negb_true_iff. split.
  - intros H. apply Qnot_le_lt. intros Hle.
    apply Qle_bool_iff in Hle. congruence.
  - intros H. destruct (Qle_bool y x) eqn:E; [|reflexivity].
    apply Qle_bool_iff in E. exfalso. exact (Qlt_not_le _ _ H E).
Qed.

Lemma key_le_spec (a b : distance) :
  key_le a b = true <->
  match a, b with
  | Some x, Some y => (x <= y)%Q
  | None, Some _ => False
  | _, None => True
  end.
Proof.
  unfold key_le. rewrite negb_true_iff.
  destruct a as [x|], b as [y|]; simpl;
    [| split; [trivial | reflexivity]
     | split; [discriminate | contradiction]
     | split; [trivial | reflexivity]].
  rewrite negb_false_iff. apply Qle_bool_iff.
Qed.

Lemma key_lt_asym (a b : distance) : key_lt a b = true -> key_lt b a = false.
Proof.
  intros H. destruct (key_lt b a) eqn:E; [|reflexivity].
  apply key_lt_spec in H, E. destruct a as [x|], b as [y|]; try contradiction.
  exfalso. apply (Qlt_irrefl x). now apply Qlt_trans with y.
Qed.

Lemma key_le_trans (a b c : distance) :
  key_le a b = true -> key_le b c = true -> key_le a c = true.
Proof.
  rewrite !key_le_spec.
  destruct a as [x|], b as [y|], c as [z|]; try tauto.
  apply Qle_trans.
Qed.

Lemma key_eq_not_lt (a b k : distance) :
  key_eq a k = true -> key_eq b k = true -> key_lt b a = false.
Proof.
  unfold key_eq. rewrite !andb_true_iff. intros [H1 H2] [H3 H4].
  assert (H : key_le a b = true) by (eapply key_le_trans; eassumption).
  unfold key_le in H. now apply negb_true_iff in H.
Qed.

(** C1: every row is paired with the distance computed for it; the ranked
    list holds exactly these pairs, so exactly the rows; along the ranked
    list distances never decrease and no entry without a distance stands
    before one with a distance; and the entries that share a distance (or
    all lack one) stand in the order of the rows. *)
Theorem rank_alerts_sorted_stable (dist : coords -> coords -> distance)
    (user : dict) (rows : list dict) :
  let responder_coords := (Py.get user "latitude", Py.get user "longitude") in
  let measured := alerts_with_distance dist user rows in
  let ranked := rank_alerts dist user rows in
  map fst measured = rows
  /\ (forall t, In t measured ->
        snd t = dist responder_coords
                  (Py.get (fst t) "lat", Py.get (fst t) "lon"))
  /\ Permutation ranked measured
  /\ Permutation (map fst ranked) rows
  /\ StronglySorted (fun a b => key_le (snd a) (snd b) = true) ranked
  /\ (forall before a between b after,
        ranked = before ++ a :: between ++ b :: after ->
        match snd a, snd b with
        | Some x, Some y => (x <= y)%Q
        | None, Some _ => False
        | _, None => True
        end)
  /\ (forall k,
        List.filter (fun t => key_eq (snd t) k) ranked =
        List.filter (fun t => key_eq (snd t) k) measured).
Proof.
  cbv zeta.
  set (lt := fun x y : dict * distance => key_lt (snd x) (snd y)).
  assert (Hperm : Permutation (rank_alerts dist user rows)
                    (alerts_with_distance dist user rows)).
  { apply list_sort_perm. }
  assert (Hmap : map fst (alerts_with_distance dist user rows) = rows).
  { unfold alerts_with_distance. rewrite map_map. simpl. apply map_id. }
  assert (Hsorted : StronglySorted (fun a b => key_le (snd a) (snd b) = true)
                      (rank_alerts dist user rows)).
  { pose proof (list_sort_sorted lt) as H.
    assert (Hs : StronglySorted (not_after lt)
                   (list_sort lt (alerts_with_distance dist user rows))).
    { apply H.
      - intros a b. apply key_lt_asym.
      - intros a b c Hab Hbc. unfold not_after, lt in *.
        assert (Hac : key_le (snd a) (snd c) = true).
        { apply key_le_trans with (snd b); unfold key_le;
            apply negb_true_iff; assumption. }
        unfold key_le in Hac. now apply negb_true_iff in Hac. }
    unfold rank_alerts. fold lt.
    induction Hs as [|a l Hl IH Ha]; constructor; [exact IH|].
    eapply List.Forall_impl; [|exact Ha].
    intros b Hab. unfold not_after, lt in Hab. unfold key_le. now rewrite Hab. }
  split; [exact Hmap|].
  split.
  { intros t Ht. unfold alerts_with_distance in Ht. apply in_map_iff in Ht.
    destruct Ht as (alert & <- & _). reflexivity. }
  split; [exact Hperm|].
  split; [rewrite <- Hmap at 2; now apply Permutation_map|].
  split; [exact Hsorted|].
  split.
  { intros before a between b after Heq. rewrite Heq in Hsorted.
    apply StronglySorted_app_1_r in Hsorted.
    apply StronglySorted_cons in Hsorted as [Hall _].
    rewrite List.Forall_forall in Hall.
    apply key_le_spec. apply Hall. apply in_or_app. right. now left. }
  intros k. apply (list_sort_stable lt).
  intros x y Hx Hy. unfold lt. eapply key_eq_not_lt; eassumption.
Qed.

(** The sample alerts, ranked for a responder at the town centre and
    partitioned. *)
Example rank_alerts_sample :
  let ranked := rank_alerts grid_distance bob sample_rows in
  ids (map fst ranked) = [VInt 6; VInt 2; VInt 5; VInt 3; VInt 1; VInt 4]
  /\ ids (map fst (unresolved_alerts ranked)) = [VInt 6; VInt 2; VInt 1]
  /\ ids (map fst (resolved_alerts ranked)) = [VInt 5; VInt 3; VInt 4].
Proof. vm_compute. repeat split. Qed.

(** ** Nearest responder *)

Lemma nearest_step_eligible dist uc hc (acc : distance * option hotline)
    (h : hotline) :
  eligible dist uc hc h = false -> nearest_step dist uc hc acc h = acc.
Proof.
  unfold eligible, hotline_distance, nearest_step.
  destruct (hc !! Address h) as [c|]; [|reflexivity].
  destruct (dist uc c) as [x|]; simpl; [|reflexivity].
  now intros ->.
Qed.

Lemma nearest_step_ok dist uc hc acc h :
  scan_state_ok acc -> scan_state_ok (nearest_step dist uc hc acc h).
Proof.
  intros Hacc. unfold nearest_step.
  destruct (hc !! Address h) as [c|]; [|exact Hacc].
  destruct (dist uc c) as [x|] eqn:E; cbv zeta; unfold closer; [|exact Hacc].
  destruct (negb (Qeq_bool x 0) && key_lt (Some x) (fst acc)); [|exact Hacc].
  right. now exists x, h.
Qed.

Lemma nearest_scan_none dist uc hc (table : list hotline)
    (acc : distance * option hotline) :
  scan_state_ok acc ->
  scan_state_ok (fold_left (nearest_step dist uc hc) table acc)
  /\ (fold_left (nearest_step dist uc hc) table acc = (None, None) <->
      acc = (None, None)
      /\ forall h, In h table -> eligible dist uc hc h = false).
Proof.
  revert acc. induction table as [|h table IH]; intros acc Hacc; simpl.
  - split; [exact Hacc|]. split; [intros ->; split; [reflexivity|intros ? []]|tauto].
  - destruct (IH (nearest_step dist uc hc acc h)
                (nearest_step_ok dist uc hc acc h Hacc)) as [Hok Hiff].
    split; [exact Hok|]. rewrite Hiff. clear IH Hiff Hok. split.
    + intros [Hstep Hrest].
      destruct (eligible dist uc hc h) eqn:El.
      * exfalso. revert Hstep. unfold nearest_step.
        unfold eligible, hotline_distance in El.
        destruct (hc !! Address h) as [c|]; [|discriminate].
        destruct (dist uc c) as [x|]; [|discriminate]. simpl. rewrite El. simpl.
        destruct Hacc as [->|(d & h' & ->)]; simpl.
        -- discriminate.
        -- destruct (negb (Qle_bool d x)); discriminate.
      * rewrite nearest_step_eligible in Hstep by exact El.
        split; [exact Hstep|]. intros h' [<-|Hin]; auto.
    + intros [-> Hall]. split.
      * apply nearest_step_eligible. apply Hall. now left.
      * intros h' Hin. apply Hall. now right.
Qed.

(** What the scan does: it shows nothing exactly when no hotline of the
    table has a known, non-zero distance. *)
Lemma nearest_hotline_none_iff dist uc hc (table : list hotline) :
  nearest_hotline dist uc hc table = None <->
  forall h, In h table -> eligible dist uc hc h = false.
Proof.
  unfold nearest_hotline.
  destruct (nearest_scan_none dist uc hc table (None, None)) as [Hok Hiff];
    [now left|].
  destruct Hok as [Hn|(d & h & Hs)].
  - rewrite Hn. split; [intros _; now apply Hiff | reflexivity].
  - rewrite Hs. split; [discriminate|].
    intros Hall. assert (Hnone : fold_left (nearest_step dist uc hc) table
                                    (None, None) = (None, None)).
    { apply Hiff. now split. }
    congruence.
Qed.

(** C3 on the code, for any distance function.  A hotline whose distance
    is 0 is passed over: when every hotline of the table has distance 0 the
    scan shows nothing.  That is what happens to Bob, who registered while
    the geocoder was down, when the hotline cache was filled while it was
    down: he and all four hotlines are at the town centre, every hotline has
    a coordinate, and nothing is shown.  And with the fire station at Bob's
    place and the other hotlines further away, the police station is
    shown, not the fire station. *)
Theorem nearest_hotline_skips_zero_distance (dist : coords -> coords -> distance) :
  (forall uc hc table,
     (forall h, In h table ->
        exists x, hotline_distance dist uc hc h = Some x /\ (x == 0)%Q) ->
     nearest_hotline dist uc hc table = None)
  /\ (dist CANTILAN_CENTER CANTILAN_CENTER = Some 0%Q ->
      (forall h, In h HOTLINES ->
         hotline_coordinates
           (fst (user_dashboard_nearest geocoder_down dist bob three_users))
         !! Address h = Some CANTILAN_CENTER)
      /\ snd (user_dashboard_nearest geocoder_down dist bob three_users) = None)
  /\ (forall x y,
        dist bob_coords bob_coords = Some 0%Q ->
        dist bob_coords hall_coords = Some x ->
        dist bob_coords health_coords = Some y ->
        (0 < x)%Q -> (x <= y)%Q ->
        nearest_hotline dist bob_coords cache_near_bob HOTLINES
        = Some (police_station, x)).
Proof.
  assert (Hzero : forall uc hc table,
            (forall h, In h table ->
               exists x, hotline_distance dist uc hc h = Some x /\ (x == 0)%Q) ->
            nearest_hotline dist uc hc table = None).
  { intros uc hc table Hall. apply nearest_hotline_none_iff. intros h Hin.
    destruct (Hall h Hin) as (x & Hx & Hx0). unfold eligible. rewrite Hx.
    apply Qeq_bool_iff in Hx0. now rewrite Hx0. }
  split; [exact Hzero|]. split.
  - intros Hself.
    assert (Hcache : forall h, In h HOTLINES ->
              snd (get_hotline_coordinates geocoder_down three_users)
              !! Address h = Some CANTILAN_CENTER).
    { intros h Hin. simpl in Hin.
      destruct Hin as [<-|[<-|[<-|[<-|[]]]]]; vm_compute; reflexivity. }
    unfold user_dashboard_nearest.
    change (Py.truthy (Py.get bob "latitude") && Py.truthy (Py.get bob "longitude"))
      with true. cbv iota.
    destruct (get_hotline_coordinates geocoder_down three_users) as [s' hc] eqn:E.
    assert (Hs : hotline_coordinates s' = hc).
    { unfold get_hotline_coordinates in E.
      destruct (bool_decide (hotline_coordinates three_users = ∅));
        injection E as <- <-; reflexivity. }
    simpl snd in Hcache. cbn [fst snd]. split.
    + intros h Hin. rewrite Hs. now apply Hcache.
    + apply Hzero. intros h Hin. exists 0%Q. split; [|reflexivity].
      unfold hotline_distance. rewrite (Hcache h Hin). exact Hself.
  - intros x y H0 Hx Hy Hpos Hle.
    assert (Hx0 : Qeq_bool x 0 = false).
    { destruct (Qeq_bool x 0) eqn:E; [|reflexivity].
      apply Qeq_bool_iff in E. rewrite E in Hpos.
      exfalso. exact (Qlt_irrefl 0 Hpos). }
    assert (Hxx : Qle_bool x x = true) by (apply Qle_bool_iff, Qle_refl).
    assert (Hxy : Qle_bool x y = true) by now apply Qle_bool_iff.
    assert (L1 : cache_near_bob !! "Brgy. Center, Cantilan, Surigao del Sur"
                 = Some bob_coords) by (vm_compute; reflexivity).
    assert (L2 : cache_near_bob !! "Municipal Hall, Cantilan, Surigao del Sur"
                 = Some hall_coords) by (vm_compute; reflexivity).
    assert (L3 : cache_near_bob !! "Health Center, Cantilan, Surigao del Sur"
                 = Some health_coords) by (vm_compute; reflexivity).
    cbv [nearest_hotline HOTLINES fold_left nearest_step Address].
    rewrite L1, L2, L3, H0, Hx, Hy. cbv [closer].
    change (Qeq_bool 0 0) with true. cbn [negb andb fst key_lt].
    rewrite Hx0. cbn [negb andb fst key_lt].
    rewrite Hxx. cbn [negb andb fst key_lt].
    rewrite Hxy. cbn [negb andb fst key_lt].
    rewrite andb_false_r. reflexivity.
Qed.

(** The planar stand-in for the distance: all four hotlines are at distance
    0 from Bob and nothing is shown; with the other cache the police station
    is shown at 111 * 0.0045 km. *)
Lemma nearest_hotline_skips_zero_distance_witness :
  snd (user_dashboard_nearest geocoder_down grid_distance bob three_users) = None
  /\ nearest_hotline grid_distance bob_coords cache_near_bob HOTLINES
     = Some (police_station, (999 # 2000)%Q).
Proof.
  destruct (nearest_hotline_skips_zero_distance grid_distance) as (_ & H1 & H2).
  split.
  - apply H1. reflexivity.
  - apply (H2 (999 # 2000)%Q (3219 # 2000)%Q);
      [reflexivity | reflexivity | reflexivity | reflexivity | discriminate].
Defined.

(** ** The users export *)

Lemma existsb_eqb_In (k : string) (cols : list string) :
  existsb (String.eqb k) cols = true <-> In k cols.
Proof.
  rewrite existsb_exists. split.
  - intros (x & Hx & E). apply String.eqb_eq in E. now subst.
  - intros H. exists k. split; [exact H | apply String.eqb_refl].
Qed.

Lemma add_columns_extends (ks cols : list string) :
  exists extra,
    add_columns cols ks = cols ++ extra
    /\ (forall k, In k extra <-> In k ks /\ ~ In k cols)
    /\ (NoDup cols -> NoDup (cols ++ extra)).
Proof.
  revert cols. induction ks as [|k ks IH]; intros cols; simpl.
  - exists []. rewrite app_nil_r. split; [reflexivity|].
    split; [intros k; simpl; tauto | auto].
  - destruct (existsb (String.eqb k) cols) eqn:E.
    + apply existsb_eqb_In in E.
      destruct (IH cols) as (extra & Heq & Hin & Hnd).
      exists extra. split; [exact Heq|]. split; [|exact Hnd].
      intros k'. rewrite Hin. split; [tauto|].
      intros [[<-|H] Hn]; [contradiction | tauto].
    + assert (Hk : ~ In k cols).
      { intros H. apply existsb_eqb_In in H. congruence. }
      destruct (IH (cols ++ [k])) as (extra & Heq & Hin & Hnd).
      exists (k :: extra). rewrite Heq, <- app_assoc. simpl.
      split; [reflexivity|]. split.
      * intros k'. simpl. rewrite Hin, in_app_iff. simpl.
        destruct (String.eqb_spec k k') as [->|Hne]; [tauto|].
        split; [intros [?|[? ?]]; [contradiction|tauto] | tauto].
      * intros Hc. rewrite <- app_assoc in Hnd. simpl in Hnd. apply Hnd.
        apply NoDup_app. split; [exact Hc|]. split.
        -- intros x Hx Hx'. apply list_elem_of_In in Hx, Hx'.
           destruct Hx' as [<-|[]]. contradiction.
        -- apply NoDup_singleton.
Qed.

Lemma add_columns_fresh (ks cols : list string) :
  NoDup (cols ++ ks) -> add_columns cols ks = cols ++ ks.
Proof.
  revert cols. induction ks as [|k ks IH]; intros cols Hnd; simpl.
  - now rewrite app_nil_r.
  - assert (Hk : existsb (String.eqb k) cols = false).
    { destruct (existsb (String.eqb k) cols) eqn:E; [|reflexivity].
      apply existsb_eqb_In in E. apply NoDup_app in Hnd as (_ & Hd & _).
      exfalso. apply (Hd k); apply list_elem_of_In; [exact E | now left]. }
    rewrite Hk. rewrite IH; rewrite <- app_assoc; [reflexivity | exact Hnd].
Qed.

Lemma df_columns_from (records : list dict) (cols : list string) :
  let result :=
    fold_left (fun cols r => add_columns cols (Py.keys r)) records cols in
  (exists extra, result = cols ++ extra)
  /\ (forall k, In k result <->
        In k cols \/ exists r, In r records /\ In k (Py.keys r))
  /\ (NoDup cols -> NoDup result).
Proof.
  cbv zeta. revert cols. induction records as [|r records IH]; intros cols; simpl.
  - split; [exists []; now rewrite app_nil_r|].
    split; [|auto]. intros k. split; [tauto|]. intros [H|(r & [] & _)]. exact H.
  - destruct (add_columns_extends (Py.keys r) cols) as (extra & Heq & Hin & Hnd).
    destruct (IH (add_columns cols (Py.keys r))) as ((extra' & -> ) & Hin' & Hnd').
    split; [exists (extra ++ extra'); now rewrite Heq, app_assoc|].
    split.
    + intros k. rewrite Hin', Heq, in_app_iff, Hin. split.
      * intros [[H|[H _]]|(r' & Hr' & Hk)]; eauto.
      * intros [H|(r' & [<-|Hr'] & Hk)]; eauto.
        destruct (in_dec string_dec k cols); [tauto|].
        left. right. tauto.
    + intros Hc. apply Hnd'. rewrite Heq. now apply Hnd.
Qed.

Lemma keys_lookup (k : string) (d : dict) :
  In k (Py.keys d) <-> exists v, Py.lookup k d = Some v.
Proof.
  induction d as [|[k' v'] d IH]; simpl.
  - split; [intros [] | intros [v H]; discriminate].
  - destruct (String.eqb_spec k' k) as [->|Hne].
    + split; [intros _; now exists v' | intros _; now left].
    + rewrite IH. split; [intros [H|H]; [contradiction|exact H] | now right].
Qed.

(** C4 on the code: the export of a user collection in which some record
    has a field is a table with one row per user, in the order of the users,
    and one column per field that occurs in some user record, each column
    once, the columns of the first user's record coming first in its
    insertion order; each cell is that user's value of that field.  The
    password is exported like any other field: its column is there, with
    every user's password in it.  The registry table of the same dashboard
    is built from the same columns with the password column taken out. *)
Theorem export_users_csv_all_fields (s : store) :
  (exists user k, In user (users s) /\ In k (Py.keys user)) ->
  exists t,
    export_users_csv s = Some t
    /\ NoDup (header t)
    /\ (forall k, In k (header t) <->
          exists user, In user (users s) /\ In k (Py.keys user))
    /\ (forall user rest, users s = user :: rest -> NoDup (Py.keys user) ->
          exists extra, header t = Py.keys user ++ extra)
    /\ body t = map (fun user => map (fun c => Py.lookup c user) (header t))
                  (users s)
    /\ (forall user password,
          In user (users s) -> Py.lookup "password" user = Some password ->
          exists i : nat,
            header t !! i = Some "password"
            /\ exists row, In row (body t) /\ row !! i = Some (Some password))
    /\ (forall registry,
          complete_user_registry s = Some registry ->
          header registry =
            List.filter (fun col => negb (String.eqb col "password")) (header t)
          /\ ~ In "password" (header registry)).
Proof.
  intros (u & k0 & Hu & Hk0). unfold export_users_csv.
  destruct (df_columns_from (users s) []) as (_ & Hin & Hnd).
  fold (df_columns (users s)) in Hin, Hnd.
  assert (Hmem : forall k, In k (df_columns (users s)) <->
                   exists user, In user (users s) /\ In k (Py.keys user)).
  { intros k. rewrite Hin. split; [intros [[]|H]; exact H | now right]. }
  destruct (df_columns (users s)) as [|c0 cols] eqn:Hcols.
  { exfalso. apply (proj2 (Hmem k0)). eauto. }
  exists (to_csv (users s)). split; [reflexivity|].
  unfold to_csv. rewrite Hcols. cbn [header body].
  split; [apply Hnd; constructor|].
  split; [exact Hmem|].
  split.
  { intros user rest Hus Hk. rewrite <- Hcols. rewrite Hus.
    unfold df_columns. simpl.
    destruct (df_columns_from rest (add_columns [] (Py.keys user)))
      as ((extra & He) & _).
    rewrite He. exists extra. f_equal.
    now apply (add_columns_fresh (Py.keys user) []). }
  split; [reflexivity|].
  split.
  - intros user password Huser Hpw.
    assert (Hcol : In "password" (c0 :: cols)).
    { apply Hmem. exists user. split; [exact Huser|]. apply keys_lookup. eauto. }
    apply list_elem_of_In, list_elem_of_lookup in Hcol as [i Hi].
    exists i. split; [exact Hi|].
    exists (map (fun c => Py.lookup c user) (c0 :: cols)). split.
    + apply in_map_iff. now exists user.
    + change (map (fun c => Py.lookup c user) (c0 :: cols))
        with ((fun c => Py.lookup c user) <$> (c0 :: cols)).
      rewrite list_lookup_fmap, Hi. simpl. now rewrite Hpw.
  - intros registry. unfold complete_user_registry.
    destruct (users s) as [|u0 us] eqn:Hus; [discriminate|].
    rewrite Hcols.
    destruct (List.filter (fun col => negb (String.eqb col "password"))
                (c0 :: cols)) as [|c1 shown] eqn:Hshown; [discriminate|].
    intros [= <-]. cbn [header]. split; [reflexivity|].
    rewrite <- Hshown. intros Hp. apply filter_In in Hp as [_ Hp].
    discriminate Hp.
Qed.

(** The export of the sample store: the third column is the password
    column, and the registry table of the same store has none. *)
Lemma export_users_csv_all_fields_witness :
  exists t, export_users_csv three_users = Some t
            /\ header t !! 2%nat = Some "password"
            /\ exists registry,
                 complete_user_registry three_users = Some registry
                 /\ ~ In "password" (header registry).
Proof.
  destruct (export_users_csv_all_fields three_users)
    as (t & Ht & _ & _ & _ & _ & _ & Hreg).
  - exists alice, "role". split; [now left | now left].
  - exists t. split; [exact Ht|]. split.
    + vm_compute in Ht. injection Ht as <-. reflexivity.
    + destruct (complete_user_registry three_users) as [registry|] eqn:E.
      * exists registry. split; [reflexivity|]. now apply (Hreg registry).
      * vm_compute in E. discriminate E.
Defined.

(** The export on the sample store: the exported table has a password
    column, and Bob's row has his password in it. *)
Lemma export_users_csv_has_password :
  exists t, export_users_csv three_users = Some t
            /\ In "password" (header t)
            /\ nth 2 (header t) "" = "password"
            /\ nth 2 (nth 1 (body t) []) None = Some (VStr "secret").
Proof.
  eexists. split; [vm_compute; reflexivity|].
  split; [right; right; now left|]. split; reflexivity.
Qed.

(** ** Geocoding failures *)

Lemma fold_cache_lookup geo (table : list hotline) (m : gmap string coords)
    (k : string) :
  fold_left (cache_hotline geo) table m !! k =
  match m !! k with
  | Some c => Some c
  | None =>
      if existsb (fun h => String.eqb (Address h) k) table
      then Some (geocode_or_center geo (VStr k))
      else None
  end.
Proof.
  revert m. induction table as [|h table IH]; intros m; simpl.
  - now destruct (m !! k).
  - rewrite IH. unfold cache_hotline at 1.
    destruct (String.eqb_spec (Address h) k) as [->|Hne]; simpl.
    + destruct (m !! k) as [c|] eqn:E; [now rewrite E|].
      unfold geocode_or_center.
      destruct (geo (VStr k)); now rewrite lookup_insert_eq.
    + destruct (m !! Address h) as [c|]; [reflexivity|].
      destruct (geo (VStr (Address h))); now rewrite lookup_insert_ne.
Qed.

Lemma add_user_record geo (user : dict) (now : string) (s : store) :
  exists r,
    add_user geo user now s = with_users (users s ++ [r]) s
    /\ Py.get r "id" = VInt (next_id (users s))
    /\ (forall k, k <> "id" -> k <> "registered_on" -> k <> "latitude" ->
          k <> "longitude" -> Py.lookup k r = Py.lookup k user)
    /\ (Py.get r "latitude", Py.get r "longitude") =
         (if Py.truthy (Py.get user "property_address")
          then geocode_or_center geo (Py.get user "property_address")
          else CANTILAN_CENTER).
Proof.
  unfold add_user. eexists. split; [reflexivity|]. split; [|split].
  - rewrite !get_set_other by congruence. apply get_set_same.
  - intros k H1 H2 H3 H4. now rewrite !lookup_set_other by congruence.
  - rewrite get_set_same, get_set_other, get_set_same by congruence.
    rewrite !get_set_other by congruence.
    unfold geocode_or_center.
    destruct (Py.truthy (Py.get user "property_address")); [|reflexivity].
    now destruct (geo (Py.get user "property_address")) as [[lat lon]|].
Qed.

(** C8, as the code has it.  A failing geocoding service never raises into
    the caller: [geocode_address] returns nothing and
    [get_address_from_coords] returns a placeholder text.  With that,
    registration and the hotline cache store the town centre and go on (the
    user is recorded with every field of the form), and an alert or a report
    that is being recorded keeps all its data and gets the placeholder as
    its address.  The report form does not fall back: without coordinates
    from an earlier lookup, a failed lookup at submission shows an error and
    records nothing, while a successful one, or coordinates from an earlier
    one, record the report.  An alert from another place than the registered
    address is not sent either while the session holds no located
    coordinates: a failed lookup leaves the session's coordinates as they
    were, and sending without any shows an error and records nothing; an
    alert from the registered address is always recorded, at the user's
    stored coordinates. *)
Theorem geocoding_failure_handling (geocode : value -> answer (Q * Q))
    (reverse : value -> value -> answer string) :
  let geo := fun address => fst (geocode_address geocode address) in
  let rev := get_address_from_coords reverse in
  (forall address, failed (geocode address) -> geo address = None)
  /\ (forall lat lon,
        failed (reverse lat lon) ->
        rev lat lon = "Address not found"
        \/ exists e, rev lat lon = String.append "Error getting address: " e)
  /\ (forall user now s,
        failed (geocode (Py.get user "property_address")) ->
        exists r,
          add_user geo user now s = with_users (users s ++ [r]) s
          /\ (forall k, k <> "id" -> k <> "registered_on" -> k <> "latitude" ->
                k <> "longitude" -> Py.lookup k r = Py.lookup k user)
          /\ (Py.get r "latitude", Py.get r "longitude") = CANTILAN_CENTER)
  /\ (forall s h,
        hotline_coordinates s = ∅ -> In h HOTLINES ->
        failed (geocode (VStr (Address h))) ->
        snd (get_hotline_coordinates geo s) !! Address h = Some CANTILAN_CENTER)
  /\ (forall user_id user_name lat lon note category now s,
        failed (reverse lat lon) ->
        exists r,
          log_sos rev user_id user_name lat lon note category now s
            = with_sos_logs (sos_logs s ++ [r]) s
          /\ Py.get r "user_id" = user_id /\ Py.get r "user_name" = user_name
          /\ Py.get r "lat" = lat /\ Py.get r "lon" = lon
          /\ Py.get r "note" = note /\ Py.get r "category" = category
          /\ (Py.get r "address" = VStr "Address not found"
              \/ exists e, Py.get r "address"
                           = VStr (String.append "Error getting address: " e)))
  /\ (forall reporter_id reporter_name category description lat lon now s,
        failed (reverse lat lon) ->
        exists r,
          add_report rev reporter_id reporter_name category description
            lat lon now s = with_reports (reports s ++ [r]) s
          /\ Py.get r "reporter_id" = reporter_id
          /\ Py.get r "reporter_name" = reporter_name
          /\ Py.get r "category" = category
          /\ Py.get r "description" = description
          /\ Py.get r "lat" = lat /\ Py.get r "lon" = lon
          /\ (Py.get r "address" = VStr "Address not found"
              \/ exists e, Py.get r "address"
                           = VStr (String.append "Error getting address: " e)))
  /\ (forall user category description incident_address incident_lat
             incident_lon now s,
        description <> "" -> incident_address <> "" ->
        (incident_lat = VNone \/ incident_lon = VNone) ->
        failed (geocode (VStr incident_address)) ->
        geocode_incident_address geo rev incident_address incident_lat
          incident_lon
        = ((incident_lat, incident_lon),
           [Error "Address not found. Please try a more specific location."])
        /\ submit_report geo rev user category description incident_address
             incident_lat incident_lon now s
           = (s, [Error "Could not locate the incident address. Please try a more specific location."]))
  /\ (forall user category description incident_address incident_lat
             incident_lon now s,
        description <> "" -> incident_address <> "" ->
        (incident_lat <> VNone /\ incident_lon <> VNone)
        \/ (exists c, geocode (VStr incident_address) = Found c) ->
        exists r,
          reports (fst (submit_report geo rev user category description
                          incident_address incident_lat incident_lon now s))
          = reports s ++ [r])
  /\ (forall user current_address temp_coords note category now s,
        failed (geocode (VStr current_address)) ->
        fst (locate_this_address geo rev current_address temp_coords)
        = temp_coords
        /\ send_emergency_alert rev user false
             (fst (locate_this_address geo rev current_address None))
             note category now s
           = (s, [Error "Please locate your current address first!"]))
  /\ (forall user use_registered temp_coords note category now s,
        (use_registered = false /\ temp_coords = None ->
         fst (send_emergency_alert rev user use_registered temp_coords note
                category now s) = s)
        /\ (use_registered = true \/ temp_coords <> None ->
            exists r,
              sos_logs (fst (send_emergency_alert rev user use_registered
                               temp_coords note category now s))
              = sos_logs s ++ [r])
        /\ (use_registered = true ->
            exists r,
              sos_logs (fst (send_emergency_alert rev user use_registered
                               temp_coords note category now s))
              = sos_logs s ++ [r]
              /\ Py.get r "lat" = Py.get user "latitude"
              /\ Py.get r "lon" = Py.get user "longitude")).
Proof.
  cbv zeta.
  assert (Hfilled : forall x : string, x <> "" -> Py.truthy (VStr x) = true).
  { intros x Hx. simpl. destruct (String.eqb_spec x ""); [contradiction|reflexivity]. }
  assert (Hgeo : forall address, failed (geocode address) ->
                   fst (geocode_address geocode address) = None).
  { intros address. unfold geocode_address.
    destruct (geocode address); simpl; [contradiction | reflexivity | reflexivity]. }
  assert (Hrev : forall lat lon, failed (reverse lat lon) ->
            get_address_from_coords reverse lat lon = "Address not found"
            \/ exists e, get_address_from_coords reverse lat lon
                         = String.append "Error getting address: " e).
  { intros lat lon. unfold get_address_from_coords.
    destruct (reverse lat lon) as [a| |e]; simpl;
      [contradiction | now left | right; now exists e]. }
  split; [exact Hgeo|]. split; [exact Hrev|].
  split; [|split; [|split; [|split; [|split; [|split; [|split]]]]]].
  - intros user now s Hfail.
    destruct (add_user_record (fun a => fst (geocode_address geocode a)) user now s)
      as (r & H1 & _ & H3 & H4).
    exists r. split; [exact H1|]. split; [exact H3|].
    rewrite H4. unfold geocode_or_center. rewrite (Hgeo _ Hfail).
    now destruct (Py.truthy (Py.get user "property_address")).
  - intros s h Hempty Hin Hfail. unfold get_hotline_coordinates.
    rewrite bool_decide_eq_true_2 by exact Hempty. cbn [snd].
    rewrite fold_cache_lookup, Hempty, lookup_empty.
    assert (He : existsb (fun h' => String.eqb (Address h') (Address h)) HOTLINES
                 = true).
    { apply existsb_exists. exists h. split; [exact Hin | apply String.eqb_refl]. }
    rewrite He. unfold geocode_or_center. now rewrite (Hgeo _ Hfail).
  - intros user_id user_name lat lon note category now s Hfail.
    eexists. split; [reflexivity|].
    repeat (split; [reflexivity|]). cbn.
    destruct (Hrev lat lon Hfail) as [-> | [e ->]]; [now left | right; now exists e].
  - intros reporter_id reporter_name category description lat lon now s Hfail.
    eexists. split; [reflexivity|].
    repeat (split; [reflexivity|]). cbn.
    destruct (Hrev lat lon Hfail) as [-> | [e ->]]; [now left | right; now exists e].
  - intros user category description incident_address la lo now s Hd Ha Hnone Hfail.
    split.
    + unfold geocode_incident_address.
      now rewrite (Hfilled _ Ha), (Hgeo _ Hfail).
    + unfold submit_report. rewrite (Hfilled _ Hd), (Hfilled _ Ha). simpl.
      assert (Hn : is_none la || is_none lo = true).
      { destruct Hnone as [-> | ->]; simpl; [reflexivity | apply orb_true_r]. }
      rewrite Hn, (Hgeo _ Hfail). reflexivity.
  - intros user category description incident_address la lo now s Hd Ha Hsrc.
    unfold submit_report. rewrite (Hfilled _ Hd), (Hfilled _ Ha). simpl.
    destruct (is_none la || is_none lo) eqn:Hn.
    + destruct Hsrc as [[H1 H2] | [c Hc]].
      * destruct la, lo; simpl in Hn; congruence.
      * unfold geocode_address. rewrite Hc. simpl. eexists. reflexivity.
    + eexists. reflexivity.
  - intros user current_address temp_coords note category now s Hfail.
    assert (Hloc : forall t, fst (locate_this_address
                       (fun a => fst (geocode_address geocode a))
                       (get_address_from_coords reverse) current_address t) = t).
    { intros t. unfold locate_this_address. rewrite (Hgeo _ Hfail).
      now destruct (Py.truthy (VStr current_address)). }
    split; [apply Hloc|]. now rewrite Hloc.
  - intros user use_registered temp_coords note category now s.
    unfold send_emergency_alert. split; [|split].
    + intros [-> ->]. reflexivity.
    + intros [-> | Hsome].
      * eexists. reflexivity.
      * destruct use_registered; [eexists; reflexivity|].
        destruct temp_coords as [[lat lon]|]; [|contradiction].
        eexists. reflexivity.
    + intros ->. eexists. split; [reflexivity|]. split; reflexivity.
Qed.

(** Bob signs up while the geocoding service times out, and Gina submits a
    report for which coordinates were found earlier. *)
Lemma geocoding_failure_handling_witness :
  (exists r,
     add_user (fun a => fst (geocode_address geocode_times_out a)) form_bob
       "2024-01-01 09:00:00" initial_store
       = with_users [r] initial_store
     /\ (Py.get r "latitude", Py.get r "longitude") = CANTILAN_CENTER)
  /\ (exists r,
        reports (fst (submit_report
                        (fun a => fst (geocode_address geocode_times_out a))
                        (get_address_from_coords reverse_finds_nothing) gina
                        "Flood" "River overflow" "Purok 3, Cantilan"
                        (VFloat (934 # 100)) (VFloat (12598 # 100))
                        "2024-01-04 08:00:00" four_users)) = [r]).
Proof.
  destruct (geocoding_failure_handling geocode_times_out reverse_finds_nothing)
    as (_ & _ & Hadd & _ & _ & _ & _ & Hsubmit & _).
  split.
  - destruct (Hadd form_bob "2024-01-01 09:00:00" initial_store I)
      as (r & Hr & _ & Hc).
    exists r. split; [exact Hr | exact Hc].
  - apply (Hsubmit gina "Flood" "River overflow" "Purok 3, Cantilan"
             (VFloat (934 # 100)) (VFloat (12598 # 100))
             "2024-01-04 08:00:00" four_users); [discriminate | discriminate |].
    left. split; discriminate.
Defined.

(** C8 as stated fails: the geocoder is down, Gina fills in the report form
    completely and submits it; she is shown an error and no report is
    recorded. *)
Lemma report_dropped_when_geocoding_fails :
  geocoder_down (VStr "Purok 3, Cantilan") = None
  /\ submit_report geocoder_down address_not_found gina
       "Flood" "River overflow" "Purok 3, Cantilan" VNone VNone
       "2024-01-04 08:00:00" four_users
     = (four_users,
        [Error "Could not locate the incident address. Please try a more specific location."])
  /\ reports four_users = [].
Proof. repeat split. Qed.

(** ** Nearest responder: the hotline that is shown *)

Lemma key_le_refl (a : distance) : key_le a a = true.
Proof. apply key_le_spec. destruct a; [apply Qle_refl | exact I]. Qed.

Lemma key_lt_le (a b : distance) : key_lt a b = true -> key_le a b = true.
Proof.
  intros H. unfold key_le. now rewrite (key_lt_asym a b H).
Qed.

Lemma key_lt_le_trans (a b c : distance) :
  key_lt a b = true -> key_le b c = true -> key_lt a c = true.
Proof.
  rewrite !key_lt_spec, key_le_spec.
  destruct a as [x|], b as [y|], c as [z|]; try tauto.
  apply Qlt_le_trans.
Qed.

Lemma nearest_step_cases dist uc hc (acc : distance * option hotline)
    (h : hotline) :
  (nearest_step dist uc hc acc h = acc
   /\ forall x, hotline_distance dist uc hc h = Some x ->
                eligible dist uc hc h = true -> key_le (fst acc) (Some x) = true)
  \/ (exists x, hotline_distance dist uc hc h = Some x
                /\ eligible dist uc hc h = true
                /\ key_lt (Some x) (fst acc) = true
                /\ nearest_step dist uc hc acc h = (Some x, Some h)).
Proof.
  unfold nearest_step, eligible, hotline_distance.
  destruct (hc !! Address h) as [c|]; [|left; split; [reflexivity|discriminate]].
  destruct (dist uc c) as [x|]; [|left; split; [reflexivity|discriminate]].
  cbv zeta. unfold closer.
  destruct (negb (Qeq_bool x 0)); [|left; split; [reflexivity|discriminate]].
  destruct (key_lt (Some x) (fst acc)) eqn:E; simpl andb; cbv iota.
  - right. exists x. auto.
  - left. split; [reflexivity|]. intros y [= <-] _. unfold key_le. now rewrite E.
Qed.

Lemma nearest_scan_min dist uc hc (table : list hotline)
    (acc : distance * option hotline) (d : Q) (h : hotline) :
  fold_left (nearest_step dist uc hc) table acc = (Some d, Some h) ->
  key_le (Some d) (fst acc) = true
  /\ (forall h' x, In h' table -> hotline_distance dist uc hc h' = Some x ->
        eligible dist uc hc h' = true -> (d <= x)%Q)
  /\ (acc = (Some d, Some h)
      \/ (key_lt (Some d) (fst acc) = true
          /\ exists before after,
               table = before ++ h :: after
               /\ hotline_distance dist uc hc h = Some d
               /\ eligible dist uc hc h = true
               /\ forall h' x, In h' before ->
                    hotline_distance dist uc hc h' = Some x ->
                    eligible dist uc hc h' = true -> (d < x)%Q)).
Proof.
  revert acc. induction table as [|h0 table IH]; intros acc Hr; simpl in Hr.
  - subst acc. split; [apply key_le_refl|]. split; [intros ? ? []|now left].
  - destruct (IH _ Hr) as (Hle & Hall & Hfrom). clear IH.
    destruct (nearest_step_cases dist uc hc acc h0)
      as [[Hsame Hacc] | (x0 & Hx0 & He0 & Hlt0 & Hupd)].
    + rewrite Hsame in *. split; [exact Hle|]. split.
      * intros h' x [<-|Hin] Hx He; [|eauto].
        apply (key_le_spec (Some d) (Some x)).
        eapply key_le_trans; [exact Hle | now apply Hacc].
      * destruct Hfrom as [Hacc' | (Hlt & before & after & -> & Hd & He & Hb)];
          [now left|].
        right. split; [exact Hlt|]. exists (h0 :: before), after.
        split; [reflexivity|]. split; [exact Hd|]. split; [exact He|].
        intros h' x [<-|Hin] Hx He'; [|eauto].
        apply (key_lt_spec (Some d) (Some x)).
        eapply key_lt_le_trans; [exact Hlt | now apply Hacc].
    + rewrite Hupd in *. simpl fst in *. split.
      * eapply key_le_trans; [exact Hle | now apply key_lt_le].
      * split.
        -- intros h' x [<-|Hin] Hx He; [|eauto].
           rewrite Hx0 in Hx. injection Hx as <-.
           now apply (key_le_spec (Some d) (Some x0)).
        -- right. destruct Hfrom as [[= <- <-] | (Hlt & before & after & -> & Hd & He & Hb)].
           ++ split; [exact Hlt0|]. exists [], table.
              split; [reflexivity|]. split; [exact Hx0|]. split; [exact He0|].
              intros ? ? [].
           ++ split; [eapply key_lt_le_trans; [exact Hlt | now apply key_lt_le]|].
              exists (h0 :: before), after.
              split; [reflexivity|]. split; [exact Hd|]. split; [exact He|].
              intros h' x [<-|Hin] Hx He'; [|eauto].
              rewrite Hx0 in Hx. injection Hx as <-.
              now apply (key_lt_spec (Some d) (Some x0)).
Qed.

(** X15: what the scan does get right: the hotline it shows has the least
    distance among the hotlines with a known, non-zero distance, and is the
    first of the table with that distance. *)
Lemma nearest_hotline_first_minimum dist uc hc (table : list hotline)
    (h : hotline) (d : Q) :
  nearest_hotline dist uc hc table = Some (h, d) ->
  exists before after,
    table = before ++ h :: after
    /\ hotline_distance dist uc hc h = Some d
    /\ eligible dist uc hc h = true
    /\ (forall h' x, In h' table -> hotline_distance dist uc hc h' = Some x ->
          eligible dist uc hc h' = true -> (d <= x)%Q)
    /\ (forall h' x, In h' before -> hotline_distance dist uc hc h' = Some x ->
          eligible dist uc hc h' = true -> (d < x)%Q).
Proof.
  unfold nearest_hotline.
  destruct (fold_left (nearest_step dist uc hc) table (None, None))
    as [[d'|] [h''|]] eqn:E; try discriminate.
  intros [= -> ->].
  destruct (nearest_scan_min dist uc hc table _ d h E)
    as (_ & Hall & [Habs | (_ & before & after & Ht & Hd & He & Hb)]);
    [discriminate|].
  exists before, after. auto.
Qed.

(** ** The signup pages *)

Lemma get_user_by_username_in_some (us : list dict) (username : string)
    (user : dict) :
  get_user_by_username_in us username = Some user ->
  In user us /\ Py.get user "username" = VStr username.
Proof.
  induction us as [|u us IH]; simpl; [discriminate|].
  destruct (Py.eqb (Py.get u "username") (VStr username)) eqn:E.
  - intros [= <-]. apply py_eqb_str in E. split; [now left | exact E].
  - intros H. destruct (IH H). split; [now right | assumption].
Qed.

Lemma get_user_by_username_in_none (us : list dict) (username : string) :
  get_user_by_username_in us username = None <->
  forall user, In user us -> Py.get user "username" <> VStr username.
Proof.
  induction us as [|u us IH]; simpl.
  - split; [intros _ ? [] | reflexivity].
  - destruct (Py.eqb (Py.get u "username") (VStr username)) eqn:E.
    + apply py_eqb_str in E. split; [discriminate|].
      intros H. exfalso. apply (H u); [now left | exact E].
    + rewrite IH. split.
      * intros H user [<-|Hin]; [|now apply H].
        intros Hu. apply py_eqb_str in Hu. congruence.
      * intros H user Hin. apply H. now right.
Qed.

Lemma username_taken_false (username : string) (s : store) :
  username_taken username s = false <->
  forall user, In user (users s) -> Py.get user "username" <> VStr username.
Proof.
  unfold username_taken, get_user_by_username.
  rewrite <- get_user_by_username_in_none.
  destruct (get_user_by_username_in (users s) username) as [u|] eqn:E.
  - apply get_user_by_username_in_some in E as [_ Hu].
    destruct u; [discriminate Hu|]. simpl. split; discriminate.
  - split; reflexivity.
Qed.


(** A submitted signup form either creates exactly the account of the
    form (when every required field is filled, the username is not in use
    and, for administrators, the two passwords agree and the verification
    code is "admin") or shows one error and leaves the store as it was. *)
Lemma signup_pages_effect (geo : value -> option (Q * Q)) (now : string)
    (s : store) :
  (forall username password name age gender mobile work family_members
          property_address specific_address property_size year_residency,
     signup_effect geo
       (citizen_accepted username password name mobile property_address s)
       (signup_user_record username password name age gender mobile work
          family_members property_address specific_address property_size
          year_residency) now s
       (page_signup_user geo username password name age gender mobile work
          family_members property_address specific_address property_size
          year_residency now s))
  /\ (forall username password name mobile position specialization work
             department equipment clearance_level base_address,
        signup_effect geo
          (rescuer_accepted username password name mobile position work
             base_address s)
          (signup_rescuer_record username password name mobile position
             specialization work department equipment clearance_level
             base_address) now s
          (page_signup_rescuer geo username password name mobile position
             specialization work department equipment clearance_level
             base_address now s))
  /\ (forall username password name mobile position department work
             clearance_level specialization office_address,
        signup_effect geo
          (government_accepted username password name mobile position
             department office_address s)
          (signup_government_record username password name mobile position
             department work clearance_level specialization office_address)
          now s
          (page_signup_government geo username password name mobile position
             department work clearance_level specialization office_address
             now s))
  /\ (forall username password name mobile admin_privileges position
             department work clearance_level verification_code
             confirm_password office_address,
        signup_effect geo
          (admin_accepted username password name mobile position department
             verification_code confirm_password s)
          (signup_admin_record username password name mobile admin_privileges
             position department work clearance_level office_address) now s
          (page_signup_admin geo username password name mobile
             admin_privileges position department work clearance_level
             verification_code confirm_password office_address now s)).
Proof.
  split; [|split; [|split]]; intros.
  - unfold signup_effect, citizen_accepted, page_signup_user.
    destruct (all_filled _); simpl; [|eauto].
    destruct (username_taken username s); simpl; eauto.
  - unfold signup_effect, rescuer_accepted, page_signup_rescuer.
    destruct (all_filled _); simpl; [|eauto].
    destruct (username_taken username s); simpl; eauto.
  - unfold signup_effect, government_accepted, page_signup_government.
    destruct (all_filled _); simpl; [|eauto].
    destruct (username_taken username s); simpl; eauto.
  - unfold signup_effect, admin_accepted, page_signup_admin.
    destruct (all_filled _); simpl; [|eauto].
    destruct (String.eqb password confirm_password); simpl; [|eauto].
    destruct (username_taken username s); simpl; [eauto|].
    destruct (String.eqb verification_code "admin"); simpl; eauto.
Qed.





(** ** Sessions: what every registered user record looks like *)

Lemma keys_set_present (k : string) (v : value) (d : dict) :
  In k (Py.keys d) -> Py.keys (Py.set k v d) = Py.keys d.
Proof.
  induction d as [|[k' v'] d IH]; simpl; [intros []|].
  destruct (String.eqb_spec k' k) as [->|Hne]; simpl; [reflexivity|].
  intros [H|H]; [contradiction|]. f_equal. unfold Py.keys in IH. now apply IH.
Qed.

Lemma keys_set_absent (k : string) (v : value) (d : dict) :
  ~ In k (Py.keys d) -> Py.keys (Py.set k v d) = Py.keys d ++ [k].
Proof.
  induction d as [|[k' v'] d IH]; simpl; [reflexivity|].
  intros Hn. destruct (String.eqb_spec k' k) as [->|Hne]; simpl.
  - exfalso. apply Hn. now left.
  - f_equal. unfold Py.keys in IH. apply IH. intros H. apply Hn. now right.
Qed.

Ltac absent_key :=
  repeat (rewrite in_app_iff || rewrite keys_set_absent by absent_key);
  simpl; intuition (discriminate || eauto).

(** [add_user] puts its four fields behind those of the form. *)
Lemma add_user_keys geo (record : dict) (now : string) (s : store) :
  ~ In "id" (Py.keys record) -> ~ In "registered_on" (Py.keys record) ->
  ~ In "latitude" (Py.keys record) -> ~ In "longitude" (Py.keys record) ->
  exists r,
    add_user geo record now s = with_users (users s ++ [r]) s
    /\ Py.keys r =
       Py.keys record ++ ["id"; "registered_on"; "latitude"; "longitude"].
Proof.
  intros H1 H2 H3 H4. unfold add_user. eexists. split; [reflexivity|].
  rewrite (keys_set_absent "longitude") by absent_key.
  rewrite (keys_set_absent "latitude") by absent_key.
  rewrite (keys_set_absent "registered_on") by absent_key.
  rewrite (keys_set_absent "id") by absent_key.
  now rewrite <- !app_assoc.
Qed.

Lemma add_user_ok geo (record : dict) (now : string) (s : store)
    (username password role : string) :
  Py.keys record = firstn 19 USER_COLUMNS ->
  Py.get record "username" = VStr username -> username <> "" ->
  Py.get record "password" = VStr password -> password <> "" ->
  Py.get record "role" = VStr role ->
  In role ["user"; "rescuer"; "government"; "admin"] ->
  exists r,
    users (add_user geo record now s) = users s ++ [r]
    /\ user_ok r
    /\ Py.get r "username" = VStr username.
Proof.
  intros Hk Hu Hune Hp Hpne Hr Hrole.
  destruct (add_user_record geo record now s) as (r & Hadd & Hid & Hother & _).
  destruct (add_user_keys geo record now s) as (r' & Hadd' & Hkeys);
    try (rewrite Hk; cbv; intuition discriminate).
  assert (r' = r) as ->.
  { rewrite Hadd in Hadd'. unfold with_users in Hadd'.
    injection Hadd' as Hadd'. apply app_inv_head in Hadd'. congruence. }
  assert (Hget : forall k, k <> "id" -> k <> "registered_on" ->
                   k <> "latitude" -> k <> "longitude" ->
                   Py.get r k = Py.get record k).
  { intros k H1 H2 H3 H4. unfold Py.get. now rewrite Hother. }
  exists r. rewrite Hadd. split; [reflexivity|]. split.
  - split; [|split; [|split; [|split]]].
    + rewrite Hkeys, Hk. reflexivity.
    + exists username. rewrite Hget by discriminate. now split.
    + exists password. rewrite Hget by discriminate. now split.
    + exists role. rewrite Hget by discriminate. now split.
    + exists (next_id (users s)). split; [exact Hid | apply next_id_positive].
  - rewrite Hget by discriminate. exact Hu.
Qed.

Lemma all_filled_In (fields : list string) (x : string) :
  all_filled fields = true -> In x fields -> x <> "".
Proof.
  unfold all_filled. rewrite forallb_forall. intros H Hin Hx.
  specialize (H x Hin). subst x. discriminate.
Qed.

Lemma NoDup_map_filter {A B : Type} (f : A -> B) (p : A -> bool) (l : list A) :
  NoDup (map f l) -> NoDup (map f (List.filter p l)).
Proof.
  induction l as [|x l IH]; simpl; [auto|].
  intros H. apply NoDup_cons in H as [Hx Hl].
  destruct (p x); simpl; [|auto].
  apply NoDup_cons. split; [|auto].
  intros Hin. apply Hx. apply list_elem_of_In in Hin. apply list_elem_of_In.
  apply in_map_iff in Hin as (y & Hy & Hin). apply in_map_iff.
  exists y. split; [exact Hy|]. apply filter_In in Hin. tauto.
Qed.

Lemma regeocode_record_ok geo (user : dict) :
  user_ok user ->
  user_ok (fst (regeocode_record geo user))
  /\ Py.get (fst (regeocode_record geo user)) "username" = Py.get user "username".
Proof.
  intros Hok. unfold regeocode_record.
  destruct (Py.truthy (Py.get user "property_address")); [|now split].
  destruct (geo (Py.get user "property_address")) as [c|]; [|now split].
  cbn [fst]. destruct Hok as (Hk & Hu & Hp & Hr & Hi).
  split; [|now rewrite !get_set_other by discriminate].
  split; [|split; [|split; [|split]]].
  - rewrite !keys_set_present; [exact Hk | | ].
    + rewrite Hk. cbv. tauto.
    + rewrite keys_set_present; rewrite Hk; cbv; tauto.
  - now rewrite !get_set_other by discriminate.
  - now rewrite !get_set_other by discriminate.
  - now rewrite !get_set_other by discriminate.
  - now rewrite !get_set_other by discriminate.
Qed.

Lemma step_users geo rev (o : op) (s : store) :
  is_add_user o = false -> is_delete_user o = false ->
  users (step geo rev o s) = users s.
Proof.
  destruct o; simpl; try discriminate; try reflexivity.
  intros _ _. unfold get_hotline_coordinates.
  now destruct (bool_decide (hotline_coordinates s = ∅)).
Qed.

(** Signing up keeps the users well formed and their usernames distinct. *)
Lemma signup_keeps_session geo (accepted : bool) (record : dict) (now : string)
    (s : store) (result : store * list notice) (username password role : string)
    (required : list string) :
  signup_effect geo accepted record now s result ->
  (accepted = true ->
   all_filled required = true /\ username_taken username s = false) ->
  In username required -> In password required ->
  Py.keys record = firstn 19 USER_COLUMNS ->
  Py.get record "username" = VStr username ->
  Py.get record "password" = VStr password ->
  Py.get record "role" = VStr role ->
  In role ["user"; "rescuer"; "government"; "admin"] ->
  Forall user_ok (users s) /\ NoDup (usernames s) ->
  Forall user_ok (users (fst result)) /\ NoDup (usernames (fst result)).
Proof.
  intros Heff Hacc Hu Hp Hk Hgu Hgp Hgr Hrole [Hok Hnd].
  unfold signup_effect in Heff. destruct accepted.
  - destruct Heff as [msg ->]. cbn [fst].
    destruct (Hacc eq_refl) as [Hfilled Hfree].
    destruct (add_user_ok geo record now s username password role)
      as (r & Hr & Hrok & Hru); auto;
      try (eapply all_filled_In; eassumption).
    unfold usernames. rewrite Hr. split.
    + apply Forall_app. split; [exact Hok|].
      apply List.Forall_cons; [exact Hrok | apply List.Forall_nil].
    + rewrite map_app. simpl. apply NoDup_app. split; [exact Hnd|]. split.
      * intros v Hv Hv'. apply list_elem_of_In in Hv, Hv'.
        destruct Hv' as [<-|[]]. apply in_map_iff in Hv as (u & Hu' & Hin).
        pose proof (proj1 (username_taken_false username s) Hfree u Hin).
        congruence.
      * apply NoDup_singleton.
  - destruct Heff as [msg ->]. now split.
Qed.

(** In a session every user record has the 23 fields of [USER_COLUMNS],
    non-empty string username and password, one of the four roles and a
    positive id, and no two users share a username. *)
Lemma session_invariant geo rev (s : store) :
  session geo rev s -> Forall user_ok (users s) /\ NoDup (usernames s).
Proof.
  induction 1 as [| ? ? ? ? ? ? ? ? ? ? ? ? now s Hs IH
                  | ? ? ? ? ? ? ? ? ? ? ? now s Hs IH
                  | ? ? ? ? ? ? ? ? ? ? now s Hs IH
                  | ? ? ? ? ? ? ? ? ? ? ? ? now s Hs IH
                  | i s Hs IH | o s Hs IH Ho].
  - split; constructor.
  - destruct (signup_pages_effect geo now s) as (H & _).
    eapply (signup_keeps_session geo _ _ now s _ username password "user");
      [apply H | | | | reflexivity | reflexivity | reflexivity | reflexivity
       | simpl; tauto | exact IH].
    + unfold citizen_accepted. intros Ha. apply andb_true_iff in Ha as [Ha Hb].
      split; [exact Ha | now apply negb_true_iff].
    + simpl; tauto.
    + simpl; tauto.
  - destruct (signup_pages_effect geo now s) as (_ & H & _).
    eapply (signup_keeps_session geo _ _ now s _ username password "rescuer");
      [apply H | | | | reflexivity | reflexivity | reflexivity | reflexivity
       | simpl; tauto | exact IH].
    + unfold rescuer_accepted. intros Ha. apply andb_true_iff in Ha as [Ha Hb].
      split; [exact Ha | now apply negb_true_iff].
    + simpl; tauto.
    + simpl; tauto.
  - destruct (signup_pages_effect geo now s) as (_ & _ & H & _).
    eapply (signup_keeps_session geo _ _ now s _ username password "government");
      [apply H | | | | reflexivity | reflexivity | reflexivity | reflexivity
       | simpl; tauto | exact IH].
    + unfold government_accepted. intros Ha. apply andb_true_iff in Ha as [Ha Hb].
      split; [exact Ha | now apply negb_true_iff].
    + simpl; tauto.
    + simpl; tauto.
  - destruct (signup_pages_effect geo now s) as (_ & _ & _ & H).
    eapply (signup_keeps_session geo _ _ now s _ username password "admin");
      [apply H | | | | reflexivity | reflexivity | reflexivity | reflexivity
       | simpl; tauto | exact IH].
    + unfold admin_accepted. intros Ha.
      apply andb_true_iff in Ha as [Ha _]. apply andb_true_iff in Ha as [Ha Hb].
      apply andb_true_iff in Ha as [Ha _].
      split; [exact Ha | now apply negb_true_iff].
    + simpl; tauto.
    + simpl; tauto.
  - destruct IH as [Hok Hnd]. unfold regeocode_my_address.
    destruct (users s !! i) as [u|] eqn:Hi; [|now split].
    destruct (regeocode_record geo u) as [u' shown] eqn:Hu. cbn [fst].
    assert (Huok : user_ok u).
    { rewrite List.Forall_forall in Hok. apply Hok.
      apply list_elem_of_In, list_elem_of_lookup. eauto. }
    destruct (regeocode_record_ok geo u Huok) as [Hu'ok Hname].
    rewrite Hu in Hu'ok, Hname. cbn [fst] in Hu'ok, Hname.
    unfold usernames. cbn [users with_users]. split.
    + apply Forall_insert; assumption.
    + change (map (fun user => Py.get user "username") (<[i:=u']> (users s)))
        with ((fun user => Py.get user "username") <$> <[i:=u']> (users s)).
      rewrite list_fmap_insert, Hname, list_insert_id; [exact Hnd|].
      rewrite list_lookup_fmap, Hi. reflexivity.
  - destruct IH as [Hok Hnd]. destruct (is_delete_user o) eqn:Hd.
    + destruct o; try discriminate. simpl. unfold usernames. simpl. split.
      * rewrite List.Forall_forall in *. intros u Hu.
        apply filter_In in Hu. now apply Hok.
      * now apply NoDup_map_filter.
    + unfold usernames. rewrite (step_users geo rev o s Ho Hd). now split.
Qed.

Lemma NoDup_map_inj_on {A B : Type} (f : A -> B) (l : list A) (x y : A) :
  NoDup (map f l) -> In x l -> In y l -> f x = f y -> x = y.
Proof.
  induction l as [|a l IH]; simpl; [intros _ []|].
  intros H. apply NoDup_cons in H as [Ha Hl].
  intros [<-|Hx] [<-|Hy] Heq; auto.
  - exfalso. apply Ha. apply list_elem_of_In. rewrite Heq. now apply in_map.
  - exfalso. apply Ha. apply list_elem_of_In. rewrite <- Heq. now apply in_map.
Qed.

(** X2: in a session no two users have the same username, so looking a
    username up, or logging in with a user's own username and password,
    returns that very user. *)
Theorem session_usernames_unique geo rev (s : store) :
  session geo rev s ->
  NoDup (usernames s)
  /\ (forall user name,
        In user (users s) -> Py.get user "username" = VStr name ->
        get_user_by_username s name = Some user)
  /\ (forall user name password,
        In user (users s) -> credentials_match name password user ->
        validate_login s name password = Some user).
Proof.
  intros Hs. destruct (session_invariant geo rev s Hs) as [_ Hnd].
  split; [exact Hnd|]. split.
  - intros user name Hin Hname. unfold get_user_by_username.
    destruct (get_user_by_username_in (users s) name) as [v|] eqn:E.
    + apply get_user_by_username_in_some in E as [Hv Hvn]. f_equal.
      apply (NoDup_map_inj_on (fun u => Py.get u "username") (users s));
        [exact Hnd | exact Hv | exact Hin | congruence].
    + exfalso. rewrite get_user_by_username_in_none in E.
      exact (E user Hin Hname).
  - intros user name password Hin Hm. unfold validate_login.
    destruct (validate_login_in (users s) name password) as [v|] eqn:E.
    + apply validate_login_in_some in E as [Hv [Hvn _]]. f_equal.
      apply (NoDup_map_inj_on (fun u => Py.get u "username") (users s));
        [exact Hnd | exact Hv | exact Hin | destruct Hm; congruence].
    + exfalso. rewrite validate_login_in_none in E. exact (E user Hin Hm).
Qed.

(** X3: once an administrator has deleted a user's id, nobody can log in
    under that user's username any more, whatever the password, and the
    username is free again. *)
Theorem deleted_user_cannot_login geo rev (s : store) (user : dict) (n : Z)
    (name : string) :
  session geo rev s ->
  In user (users s) ->
  Py.get user "id" = VInt n ->
  Py.get user "username" = VStr name ->
  (forall password,
     validate_login (delete_user_by_id n s) name password = None)
  /\ get_user_by_username (delete_user_by_id n s) name = None
  /\ username_taken name (delete_user_by_id n s) = false.
Proof.
  intros Hs Hin Hid Hname.
  destruct (session_invariant geo rev s Hs) as [_ Hnd].
  assert (Hgone : forall v, In v (users (delete_user_by_id n s)) ->
                    Py.get v "username" <> VStr name).
  { intros v Hv Hvn. simpl in Hv. apply filter_In in Hv as [Hv Hne].
    assert (v = user) as ->.
    { apply (NoDup_map_inj_on (fun u => Py.get u "username") (users s));
        [exact Hnd | exact Hv | exact Hin | congruence]. }
    unfold Py.neqb in Hne. rewrite Hid, py_eqb_int, Z.eqb_refl in Hne.
    discriminate. }
  split; [|split].
  - intros password. apply validate_login_in_none.
    intros v Hv [Hvn _]. exact (Hgone v Hv Hvn).
  - now apply get_user_by_username_in_none.
  - now apply username_taken_false.
Qed.

Lemma registered_two_session :
  session geocoder_down address_not_found registered_two.
Proof. unfold registered_two. do 2 constructor. constructor. Qed.

(** In the sample session the usernames are distinct and Bob's lookup finds
    Bob. *)
Lemma session_usernames_unique_witness :
  NoDup (usernames registered_two)
  /\ exists user, get_user_by_username registered_two "bob" = Some user.
Proof.
  destruct (session_usernames_unique geocoder_down address_not_found
              registered_two registered_two_session) as (Hnd & Hfind & _).
  split; [exact Hnd|].
  exists (nth 1 (users registered_two) []).
  apply Hfind; [right; left; reflexivity | reflexivity].
Defined.

(** Bob (id 2) is deleted from the sample session. *)
Lemma deleted_user_cannot_login_witness :
  validate_login (delete_user_by_id 2 registered_two) "bob" "secret" = None.
Proof.
  apply (deleted_user_cannot_login geocoder_down address_not_found
           registered_two (nth 1 (users registered_two) []) 2 "bob");
    [exact registered_two_session | right; left; reflexivity
     | reflexivity | reflexivity].
Defined.

(** ** Sessions: the tables and counters of the dashboards *)






(** X5: in a session the four role counters shown on the home page and on
    the administrator's dashboard add up to the number of users. *)
Theorem session_role_counts geo rev (s : store) :
  session geo rev s ->
  (role_count "user" s + role_count "rescuer" s
   + role_count "government" s + role_count "admin" s)%nat
  = length (users s).
Proof.
  intros Hs. destruct (session_invariant geo rev s Hs) as [Hok _].
  unfold role_count. induction Hok as [|u us Hu Hus IH]; [reflexivity|].
  destruct Hu as (_ & _ & _ & (role & Hr & Hin) & _).
  cbn [List.filter]. rewrite Hr.
  simpl in Hin. destruct Hin as [<-|[<-|[<-|[<-|[]]]]]; simpl; lia.
Qed.

(** One administrator and one citizen in the sample session. *)
Lemma session_role_counts_witness :
  (role_count "user" registered_two + role_count "rescuer" registered_two
   + role_count "government" registered_two + role_count "admin" registered_two)%nat
  = 2%nat.
Proof.
  exact (session_role_counts geocoder_down address_not_found registered_two
           registered_two_session).
Defined.

(** ** Identifiers when nothing is deleted *)

Lemma id_range_S (n : nat) :
  id_range (S n) = id_range n ++ [VInt (Z.of_nat n + 1)].
Proof.
  unfold id_range. rewrite seq_S, map_app. simpl.
  do 3 f_equal. lia.
Qed.

Lemma id_range_NoDup (n : nat) : NoDup (id_range n).
Proof.
  unfold id_range. apply NoDup_fmap_2; [|apply NoDup_seq].
  intros i j [= H]. lia.
Qed.

Lemma ids_sequential_app (l : list dict) (r : dict) :
  ids_sequential l -> Py.get r "id" = VInt (next_id l) ->
  ids_sequential (l ++ [r]).
Proof.
  unfold ids_sequential, ids. intros Hl Hr.
  rewrite map_app, length_app, Hl. simpl. rewrite Hr.
  rewrite Nat.add_1_r, id_range_S. reflexivity.
Qed.

Lemma ids_mark_handled_in (l : list dict) (sos_id : Z) :
  ids (mark_handled_in l sos_id) = ids l
  /\ length (mark_handled_in l sos_id) = length l.
Proof.
  unfold ids. induction l as [|a l [IH1 IH2]]; simpl; [now split|].
  destruct (Py.eqb (Py.get a "id") (VInt sos_id)); simpl.
  - now rewrite get_set_other by discriminate.
  - now rewrite IH1, IH2.
Qed.

Lemma ids_ensure_handled (l : list dict) :
  ids (map ensure_handled l) = ids l.
Proof.
  unfold ids. rewrite map_map. apply map_ext. intros a.
  unfold ensure_handled. destruct (Py.mem "handled" a); [reflexivity|].
  now rewrite get_set_other by discriminate.
Qed.

Lemma step_reports geo rev (o : op) (s : store) :
  reports (step geo rev o s) = reports s
  \/ exists r, reports (step geo rev o s) = reports s ++ [r]
               /\ Py.get r "id" = VInt (next_id (reports s)).
Proof.
  destruct o; simpl; auto.
  - right. eexists. split; reflexivity.
  - left. unfold get_hotline_coordinates.
    now destruct (bool_decide (hotline_coordinates s = ∅)).
Qed.

(** X6: reports are never deleted, so in every state that the store
    operations can reach the report ids are 1, 2, ..., n in order, and no
    two reports share an id. *)
Theorem report_ids_sequential geo rev (s : store) :
  reachable geo rev s ->
  ids (reports s) = id_range (length (reports s))
  /\ NoDup (ids (reports s)).
Proof.
  intros Hs.
  assert (H : ids_sequential (reports s)).
  { induction Hs as [|o s Hs IH]; [reflexivity|].
    destruct (step_reports geo rev o s) as [-> | (r & -> & Hr)]; [exact IH|].
    now apply ids_sequential_app. }
  split; [exact H|]. rewrite H. apply id_range_NoDup.
Qed.

(** X7: as long as no user is deleted, user ids and alert ids are
    1, 2, ..., n in order of creation, hence distinct: ids can only collide
    after a deletion. *)
Theorem ids_sequential_without_delete geo rev (ops : list op) :
  forallb (fun o => negb (is_delete_user o)) ops = true ->
  let s := run geo rev ops initial_store in
  ids (users s) = id_range (length (users s))
  /\ ids (sos_logs s) = id_range (length (sos_logs s))
  /\ NoDup (ids (users s))
  /\ NoDup (ids (sos_logs s)).
Proof.
  intros Hops. cbv zeta.
  assert (H : forall s,
             ids_sequential (users s) /\ ids_sequential (sos_logs s) ->
             ids_sequential (users (run geo rev ops s))
             /\ ids_sequential (sos_logs (run geo rev ops s))).
  { induction ops as [|o ops IH]; intros s Hs; [exact Hs|].
    simpl in Hops. apply andb_true_iff in Hops as [Ho Hops].
    simpl. apply (IH Hops). destruct Hs as [Hu Ha].
    destruct o; try discriminate; cbn [step].
    - destruct (add_user_id geo user now s) as (r & Hr & Hid).
      split; [|exact Ha]. rewrite Hr. now apply ids_sequential_app.
    - split; [exact Hu|]. cbn [sos_logs log_sos with_sos_logs].
      now apply ids_sequential_app.
    - split; [exact Hu|]. unfold ids_sequential. cbn [sos_logs get_active_sos with_sos_logs].
      now rewrite ids_ensure_handled, length_map.
    - split; [exact Hu|]. unfold ids_sequential.
      cbn [sos_logs mark_sos_handled with_sos_logs].
      destruct (ids_mark_handled_in (sos_logs s) sos_id) as [-> ->]. exact Ha.
    - split; assumption.
    - unfold get_hotline_coordinates.
      destruct (bool_decide (hotline_coordinates s = ∅)); split; assumption. }
  destruct (H initial_store) as [Hu Ha]; [split; reflexivity|].
  repeat split; [exact Hu | exact Ha | rewrite Hu | rewrite Ha];
    apply id_range_NoDup.
Qed.

Lemma three_users_reachable :
  reachable geocoder_down address_not_found three_users.
Proof. unfold three_users, offline_run. apply run_reachable. constructor. Qed.

Lemma four_users_reachable :
  reachable geocoder_down address_not_found four_users.
Proof.
  unfold four_users, offline_run. apply run_reachable.
  exact three_users_reachable.
Qed.

Lemma two_alerts_reachable :
  reachable geocoder_down address_not_found two_alerts.
Proof.
  unfold two_alerts, offline_run. apply run_reachable.
  exact three_users_reachable.
Qed.

Lemma one_report_reachable :
  reachable geocoder_down address_not_found one_report.
Proof.
  unfold one_report, offline_run. apply run_reachable.
  exact four_users_reachable.
Qed.

(** The one report of the sample store has id 1. *)
Lemma report_ids_sequential_witness : ids (reports one_report) = [VInt 1].
Proof.
  exact (proj1 (report_ids_sequential geocoder_down address_not_found one_report
                  one_report_reachable)).
Defined.

(** Three signups and no deletion: the ids are 1, 2, 3. *)
Lemma ids_sequential_without_delete_witness :
  ids (users three_users) = [VInt 1; VInt 2; VInt 3].
Proof.
  exact (proj1 (ids_sequential_without_delete geocoder_down address_not_found
                  [ AddUser form_alice "2024-01-01 08:00:00";
                    AddUser form_bob "2024-01-01 09:00:00";
                    AddUser form_carol "2024-01-01 10:00:00" ] eq_refl)).
Defined.

(** ** The normalising pass of get_active_sos *)

Lemma ensure_handled_mem (sos : dict) :
  Py.mem "handled" (ensure_handled sos) = true.
Proof.
  unfold ensure_handled. destruct (Py.mem "handled" sos) eqn:E; [exact E|].
  unfold Py.mem. now rewrite lookup_set_same.
Qed.

Lemma ensure_handled_idem (sos : dict) :
  ensure_handled (ensure_handled sos) = ensure_handled sos.
Proof.
  unfold ensure_handled at 1. now rewrite ensure_handled_mem.
Qed.

Lemma ensure_handled_flag (sos : dict) :
  handled_flag (ensure_handled sos) = handled_flag sos.
Proof.
  unfold ensure_handled. destruct (Py.mem "handled" sos) eqn:E; [reflexivity|].
  unfold handled_flag, Py.get_default. rewrite lookup_set_same.
  unfold Py.mem in E. now destruct (Py.lookup "handled" sos).
Qed.

Lemma ensure_handled_bool (sos : dict) :
  handled_is_bool sos -> ensure_handled sos = sos.
Proof.
  intros [b Hb]. unfold ensure_handled, Py.mem. now rewrite Hb.
Qed.

Lemma reachable_handled_bool geo rev (s : store) :
  reachable geo rev s -> Forall handled_is_bool (sos_logs s).
Proof.
  induction 1 as [|o s Hs IH]; [constructor|].
  destruct o; cbn [step]; try exact IH.
  - simpl. rewrite List.Forall_forall in *. intros a Ha.
    apply filter_In in Ha. now apply IH.
  - simpl. apply Forall_app. split; [exact IH|].
    apply List.Forall_cons; [|apply List.Forall_nil]. now exists false.
  - simpl. rewrite List.Forall_forall in *. intros a Ha.
    apply in_map_iff in Ha as (a' & <- & Ha').
    rewrite (ensure_handled_bool a') by (now apply IH). now apply IH.
  - simpl. induction IH as [|a l Ha Hl IHl]; simpl; [constructor|].
    destruct (Py.eqb (Py.get a "id") (VInt sos_id)).
    + apply List.Forall_cons; [|exact Hl].
      exists true. apply lookup_set_same.
    + apply List.Forall_cons; assumption.
  - now rewrite get_hotline_coordinates_logs.
Qed.

(** X8: the pass of [get_active_sos] over the alerts gives every alert a
    "handled" entry without changing whether an alert counts as handled,
    running it twice is the same as running it once, and in every state
    that the store operations can reach each alert already has a boolean
    "handled" entry, so the pass changes nothing. *)
Theorem get_active_sos_normalises geo rev (s : store) :
  get_active_sos (get_active_sos s) = get_active_sos s
  /\ Forall (fun sos => Py.mem "handled" sos = true)
       (sos_logs (get_active_sos s))
  /\ map handled_flag (sos_logs (get_active_sos s))
     = map handled_flag (sos_logs s)
  /\ (reachable geo rev s ->
      Forall handled_is_bool (sos_logs s) /\ get_active_sos s = s).
Proof.
  split; [|split; [|split]].
  - unfold get_active_sos, with_sos_logs. simpl. f_equal.
    rewrite map_map. apply map_ext. intros a. apply ensure_handled_idem.
  - simpl. apply List.Forall_forall. intros a Ha.
    apply in_map_iff in Ha as (a' & <- & _). apply ensure_handled_mem.
  - simpl. rewrite map_map. apply map_ext. intros a. apply ensure_handled_flag.
  - intros Hs. pose proof (reachable_handled_bool geo rev s Hs) as Hb.
    split; [exact Hb|]. apply store_eq; try reflexivity. simpl.
    rewrite <- (map_id (sos_logs s)) at 2. apply map_ext_in.
    intros a Ha. apply ensure_handled_bool.
    rewrite List.Forall_forall in Hb. now apply Hb.
Qed.

(** The pass leaves the sample store with two alerts as it is. *)
Lemma get_active_sos_normalises_witness : get_active_sos two_alerts = two_alerts.
Proof.
  destruct (get_active_sos_normalises geocoder_down address_not_found two_alerts)
    as (_ & _ & _ & H).
  apply H. exact two_alerts_reachable.
Defined.

(** ** The hotline coordinate cache *)

(** X9: the first call of [get_hotline_coordinates] stores a coordinate for
    every hotline address (the geocoded point, or the town centre where
    geocoding failed) and for nothing else, and touches no user, alert or
    report; every later call returns that same cache without consulting the
    geocoder, so a failed lookup is never tried again. *)
Theorem get_hotline_coordinates_cached (geo geo' : value -> option (Q * Q))
    (s : store) :
  hotline_coordinates s = ∅ ->
  let s1 := fst (get_hotline_coordinates geo s) in
  let m := snd (get_hotline_coordinates geo s) in
  hotline_coordinates s1 = m
  /\ (forall h, In h HOTLINES ->
        m !! Address h = Some (geocode_or_center geo (VStr (Address h))))
  /\ (forall k c, m !! k = Some c -> exists h, In h HOTLINES /\ Address h = k)
  /\ get_hotline_coordinates geo' s1 = (s1, m)
  /\ users s1 = users s /\ sos_logs s1 = sos_logs s /\ reports s1 = reports s.
Proof.
  intros Hempty. cbv zeta.
  set (m := fold_left (cache_hotline geo) HOTLINES (hotline_coordinates s)).
  assert (Hg : get_hotline_coordinates geo s = (with_hotline_coordinates m s, m)).
  { unfold get_hotline_coordinates.
    now rewrite bool_decide_eq_true_2 by exact Hempty. }
  rewrite Hg. cbn [fst snd]. clear Hg.
  assert (Hm : forall k, m !! k =
            if existsb (fun h => String.eqb (Address h) k) HOTLINES
            then Some (geocode_or_center geo (VStr k)) else None).
  { intros k. unfold m. now rewrite fold_cache_lookup, Hempty, lookup_empty. }
  assert (Hall : forall h, In h HOTLINES ->
            m !! Address h = Some (geocode_or_center geo (VStr (Address h)))).
  { intros h Hin. rewrite Hm.
    assert (He : existsb (fun h' => String.eqb (Address h') (Address h)) HOTLINES
                 = true).
    { apply existsb_exists. exists h. split; [exact Hin | apply String.eqb_refl]. }
    now rewrite He. }
  split; [reflexivity|]. split; [exact Hall|]. split; [|split].
  - intros k c Hk. rewrite Hm in Hk.
    destruct (existsb (fun h => String.eqb (Address h) k) HOTLINES) eqn:E;
      [|discriminate].
    apply existsb_exists in E as (h & Hin & Heq). apply String.eqb_eq in Heq.
    now exists h.
  - unfold get_hotline_coordinates. cbn [hotline_coordinates with_hotline_coordinates].
    rewrite bool_decide_eq_false_2; [reflexivity|].
    intros Hm0.
    pose proof (Hall (mkHotline "BFP - Fire Station" "0917-000-0000"
                        "Brgy. Center, Cantilan, Surigao del Sur")
                  (or_introl eq_refl)) as H1.
    rewrite Hm0, lookup_empty in H1. discriminate.
  - repeat split.
Qed.

(** With the geocoder down the fire station is cached at the town centre. *)
Lemma get_hotline_coordinates_cached_witness :
  snd (get_hotline_coordinates geocoder_down three_users)
  !! "Brgy. Center, Cantilan, Surigao del Sur" = Some CANTILAN_CENTER.
Proof.
  destruct (get_hotline_coordinates_cached geocoder_down geocoder_down
              three_users eq_refl) as (_ & H & _).
  exact (H (mkHotline "BFP - Fire Station" "0917-000-0000"
              "Brgy. Center, Cantilan, Surigao del Sur") (or_introl eq_refl)).
Defined.

(** ** The active-alert counter and the responder's lists *)

Lemma filter_Permutation {A : Type} (f : A -> bool) (l l' : list A) :
  Permutation l l' -> Permutation (List.filter f l) (List.filter f l').
Proof.
  induction 1 as [|x l l' H IH|x y l|l l' l'' H1 IH1 H2 IH2]; simpl.
  - constructor.
  - destruct (f x); [now constructor | exact IH].
  - destruct (f x), (f y); try reflexivity. apply perm_swap.
  - now transitivity (List.filter f l').
Qed.

Lemma handled_is_false_bool (sos : dict) :
  handled_is_bool sos -> handled_is_false sos = negb (handled_flag sos).
Proof.
  intros [b Hb]. unfold handled_is_false, handled_flag, Py.get_default.
  rewrite Hb. now destruct b.
Qed.

Lemma unresolved_length dist (user : dict) (rows : list dict) :
  Forall handled_is_bool rows ->
  length (unresolved_alerts (rank_alerts dist user rows))
  = length (List.filter handled_is_false rows).
Proof.
  intros Hb. unfold unresolved_alerts, rank_alerts.
  rewrite (Permutation_length
             (filter_Permutation _ _ _ (list_sort_perm _ _))).
  unfold alerts_with_distance.
  induction Hb as [|a rows Ha Hrows IH]; [reflexivity|].
  simpl. unfold is_handled at 1. cbn [fst].
  fold (handled_flag a). rewrite (handled_is_false_bool a Ha).
  destruct (handled_flag a); simpl; now rewrite IH.
Qed.

Lemma reachable_get_active_sos_noop geo rev (s : store) :
  reachable geo rev s ->
  Forall handled_is_bool (sos_logs s) /\ get_active_sos s = s.
Proof.
  intros Hs. pose proof (reachable_handled_bool geo rev s Hs) as Hb.
  split; [exact Hb|]. apply store_eq; try reflexivity. simpl.
  rewrite <- (map_id (sos_logs s)) at 2. apply map_ext_in.
  intros a Ha. apply ensure_handled_bool.
  rewrite List.Forall_forall in Hb. now apply Hb.
Qed.



Lemma partition_length (ranked : list (dict * distance)) :
  (length (unresolved_alerts ranked) + length (resolved_alerts ranked)
   = length ranked)%nat.
Proof.
  unfold unresolved_alerts, resolved_alerts.
  rewrite <- length_app. apply Permutation_length, filter_split_perm.
Qed.

(** X10: in every state that the store operations can reach, the number of
    entries in the responder's list of unresolved alerts is the "Active
    Alerts" number shown on the home page and on the administrator's
    dashboard, and the unresolved and resolved lists together have one entry
    per stored alert. *)
Theorem active_alerts_match_dashboard geo rev dist (user : dict) (s : store) :
  reachable geo rev s ->
  match snd (rescuer_dashboard dist user s) with
  | Some (unresolved, resolved) =>
      length unresolved = snd (active_alerts s)
      /\ (length unresolved + length resolved)%nat = length (sos_logs s)
  | None => snd (active_alerts s) = 0%nat /\ sos_logs s = []
  end.
Proof.
  intros Hs.
  destruct (reachable_get_active_sos_noop geo rev s Hs) as [Hb Hnoop].
  unfold rescuer_dashboard, active_alerts. rewrite Hnoop.
  destruct (sos_logs s) as [|a rows] eqn:Hrows; [now split|].
  cbn [snd]. split.
  - assert (He : existsb (Py.mem "handled") (a :: rows) = true).
    { simpl. apply Forall_cons in Hb as [[b Ha] _].
      unfold Py.mem. now rewrite Ha. }
    rewrite He. cbn [snd]. now apply unresolved_length.
  - rewrite partition_length. unfold rank_alerts.
    rewrite (Permutation_length (list_sort_perm _ _)).
    unfold alerts_with_distance. now rewrite length_map.
Qed.

(** Two alerts, one of them handled: one active alert, one entry in the
    unresolved list. *)
Lemma active_alerts_match_dashboard_witness :
  snd (active_alerts two_alerts) = 1%nat
  /\ match snd (rescuer_dashboard grid_distance bob two_alerts) with
     | Some (unresolved, resolved) => length unresolved = 1%nat
     | None => False
     end.
Proof.
  pose proof (active_alerts_match_dashboard geocoder_down address_not_found
                grid_distance bob two_alerts two_alerts_reachable) as H.
  split; [reflexivity|].
  destruct (snd (rescuer_dashboard grid_distance bob two_alerts))
    as [[unresolved resolved]|] eqn:E.
  - destruct H as [H _]. rewrite H. reflexivity.
  - destruct H as [_ H]. discriminate H.
Defined.

(** ** From the citizen's alert to the responder's lists *)








(** ** Alerts that share an id *)

Lemma mark_handled_in_behind (front after : list dict) (b : dict) (sos_id : Z) :
  (exists x, In x front /\ Py.eqb (Py.get x "id") (VInt sos_id) = true)
  \/ Py.eqb (Py.get b "id") (VInt sos_id) = false ->
  exists front' after',
    mark_handled_in (front ++ b :: after) sos_id = front' ++ b :: after'
    /\ ids front' = ids front
    /\ length after' = length after.
Proof.
  intros Hc. induction front as [|y front IH]; simpl.
  - destruct Hc as [(x & [] & _) | Hb]. rewrite Hb.
    exists [], (mark_handled_in after sos_id). simpl.
    split; [reflexivity|]. split; [reflexivity|].
    apply ids_mark_handled_in.
  - destruct (Py.eqb (Py.get y "id") (VInt sos_id)) eqn:E.
    + exists (Py.set "handled" (VBool true) y :: front), after. simpl.
      split; [reflexivity|]. split; [|reflexivity].
      unfold ids. simpl. now rewrite get_set_other by discriminate.
    + destruct IH as (front' & after' & Hm & Hi & Hl).
      { destruct Hc as [(x & [<-|Hx] & Hxe) | Hb]; [congruence | | now right].
        left. now exists x. }
      exists (y :: front'), after'. simpl. rewrite Hm.
      split; [reflexivity|]. split; [|exact Hl].
      unfold ids in *. simpl. now rewrite Hi.
Qed.

(** X12: when two stored alerts have the same id, the later one can never be
    marked handled: whatever ids are marked, in whatever order, it stays in
    its place exactly as it was. *)
Theorem duplicate_id_alert_never_marked (before mid after : list dict)
    (a b : dict) (marks : list Z) (s : store) :
  sos_logs s = before ++ a :: mid ++ b :: after ->
  Py.get a "id" = Py.get b "id" ->
  let s' := fold_left (fun s sos_id => mark_sos_handled sos_id s) marks s in
  length (sos_logs s') = length (sos_logs s)
  /\ sos_logs s' !! (length before + 1 + length mid)%nat = Some b.
Proof.
  intros Hlogs Hid. cbv zeta.
  assert (H : forall marks front after0 s0,
            sos_logs s0 = front ++ b :: after0 ->
            In (Py.get b "id") (ids front) ->
            exists front' after',
              sos_logs (fold_left (fun s sos_id => mark_sos_handled sos_id s)
                          marks s0) = front' ++ b :: after'
              /\ length front' = length front
              /\ length after' = length after0).
  { clear. induction marks as [|i marks IH]; intros front after0 s0 Hs0 Hin.
    - exists front, after0. simpl. now repeat split.
    - simpl.
      destruct (mark_handled_in_behind front after0 b i)
        as (front' & after' & Hm & Hi & Hl).
      { destruct (Py.eqb (Py.get b "id") (VInt i)) eqn:E; [|now right].
        left. unfold ids in Hin. apply in_map_iff in Hin as (x & Hx & Hxin).
        exists x. split; [exact Hxin | now rewrite Hx]. }
      destruct (IH front' after' (mark_sos_handled i s0))
        as (front'' & after'' & Hf & Hl1 & Hl2).
      { simpl. now rewrite Hs0. }
      { now rewrite Hi. }
      exists front'', after''. split; [exact Hf|].
      assert (Hlen : length front' = length front).
      { apply (f_equal (@length _)) in Hi. unfold ids in Hi.
        now rewrite !length_map in Hi. }
      split; congruence. }
  destruct (H marks (before ++ a :: mid) after s) as (front' & after' & Hf & Hl1 & Hl2).
  - now rewrite Hlogs, <- app_assoc.
  - unfold ids. rewrite map_app. apply in_or_app. right. left. exact Hid.
  - rewrite Hf, Hlogs. split.
    + rewrite !length_app. simpl. rewrite !length_app. simpl.
      rewrite length_app in Hl1. simpl in Hl1. lia.
    + rewrite length_app in Hl1. simpl in Hl1.
      replace (length before + 1 + length mid)%nat with (length front' + 0)%nat
        by lia.
      now rewrite lookup_app_r, Nat.add_comm, Nat.add_sub by lia.
Qed.

(** After the responder has pressed "Mark Handled" on id 2 twice, the second
    alert with id 2 is still not handled. *)
Lemma duplicate_id_alert_never_marked_witness :
  option_map handled_flag
    (sos_logs (fold_left (fun s sos_id => mark_sos_handled sos_id s) [2; 2]
                 colliding_alerts) !! 1%nat) = Some false.
Proof.
  assert (Hlogs : sos_logs colliding_alerts
                  = [] ++ nth 0 (sos_logs colliding_alerts) []
                       :: [] ++ nth 1 (sos_logs colliding_alerts) [] :: [])
    by (vm_compute; reflexivity).
  assert (Hid : Py.get (nth 0 (sos_logs colliding_alerts) []) "id"
                = Py.get (nth 1 (sos_logs colliding_alerts) []) "id")
    by (vm_compute; reflexivity).
  destruct (duplicate_id_alert_never_marked [] [] [] _ _ [2; 2]
              colliding_alerts Hlogs Hid) as [_ H].
  simpl length in H. simpl Nat.add in H. rewrite H.
  vm_compute. reflexivity.
Defined.


(** ** The registry table of the administrator *)

(** X13: the "Complete User Registry" table never has a password column; it
    has every other field of the user records, each once and in the order of
    the exported table, and one row per user. *)
Theorem complete_user_registry_hides_password (s : store) (t : csv) :
  complete_user_registry s = Some t ->
  ~ In "password" (header t)
  /\ (forall k, In k (header t) <->
        k <> "password"
        /\ exists user, In user (users s) /\ In k (Py.keys user))
  /\ NoDup (header t)
  /\ header t = List.filter (fun c => negb (String.eqb c "password"))
                  (header (to_csv (users s)))
  /\ body t = map (fun user => map (fun c => Py.lookup c user) (header t))
                (users s).
Proof.
  unfold complete_user_registry. destruct (users s) as [|u0 us] eqn:Hus;
    [discriminate|].
  destruct (List.filter (fun c => negb (String.eqb c "password"))
              (df_columns (u0 :: us))) as [|c cs] eqn:Hcols; [discriminate|].
  intros [= <-]. cbn [header body to_csv]. rewrite <- Hcols.
  set (cols := List.filter (fun c => negb (String.eqb c "password"))
                 (df_columns (u0 :: us))).
  destruct (df_columns_from (u0 :: us) []) as (_ & Hin & Hnd).
  fold (df_columns (u0 :: us)) in Hin, Hnd.
  assert (Hmem : forall k, In k cols <->
            k <> "password"
            /\ exists user, In user (u0 :: us) /\ In k (Py.keys user)).
  { intros k. unfold cols. rewrite filter_In, Hin, negb_true_iff.
    destruct (String.eqb_spec k "password") as [->|Hne].
    - split; [intros [_ H]; discriminate | intros [H _]; congruence].
    - split.
      + intros [[[]|H] _]. now split.
      + intros [_ H]. split; [now right | reflexivity]. }
  split; [|split; [|split; [|split]]].
  - intros H. apply Hmem in H as [H _]. congruence.
  - exact Hmem.
  - unfold cols. apply NoDup_ListNoDup, List.NoDup_filter, NoDup_ListNoDup.
    apply Hnd. constructor.
  - reflexivity.
  - unfold cols. rewrite Hcols. reflexivity.
Qed.

(** The registry of the sample store has 22 columns, none of them the
    password. *)
Lemma complete_user_registry_hides_password_witness :
  exists t, complete_user_registry three_users = Some t
            /\ ~ In "password" (header t).
Proof.
  destruct (complete_user_registry three_users) as [t|] eqn:E.
  - exists t. split; [reflexivity|].
    exact (proj1 (complete_user_registry_hides_password three_users t E)).
  - vm_compute in E. discriminate E.
Defined.

(** ** Re-geocoding the own address *)

(** X14: the "Re-geocode My Address" button changes nothing but the latitude
    and longitude of the logged-in user's record: every other user, every
    other field of that record, the alerts and the reports stay as they
    were; and when the user has no address or the geocoder finds nothing,
    the store is left exactly as it was. *)
Theorem regeocode_my_address_effect geo (i : nat) (s : store) (user : dict) :
  users s !! i = Some user ->
  let s' := fst (regeocode_my_address geo i s) in
  length (users s') = length (users s)
  /\ (forall j, j <> i -> users s' !! j = users s !! j)
  /\ (exists user',
        users s' !! i = Some user'
        /\ (forall k, k <> "latitude" -> k <> "longitude" ->
              Py.lookup k user' = Py.lookup k user)
        /\ (Py.truthy (Py.get user "property_address") = true ->
            forall c, geo (Py.get user "property_address") = Some c ->
            Py.get user' "latitude" = VFloat (fst c)
            /\ Py.get user' "longitude" = VFloat (snd c)))
  /\ (Py.truthy (Py.get user "property_address") = false
      \/ geo (Py.get user "property_address") = None -> s' = s)
  /\ sos_logs s' = sos_logs s
  /\ reports s' = reports s
  /\ hotline_coordinates s' = hotline_coordinates s.
Proof.
  intros Hi. cbv zeta. unfold regeocode_my_address. rewrite Hi.
  destruct (regeocode_record geo user) as [user' shown] eqn:Hrec.
  cbn [fst users with_users sos_logs reports hotline_coordinates].
  assert (Hlt : (i < length (users s))%nat) by (eapply lookup_lt_Some; eauto).
  split; [apply length_insert|].
  split; [intros j Hj; now apply list_lookup_insert_ne|].
  split; [|split; [|now repeat split]].
  - exists user'. split; [now apply list_lookup_insert_eq|].
    unfold regeocode_record in Hrec.
    destruct (Py.truthy (Py.get user "property_address")).
    + destruct (geo (Py.get user "property_address")) as [c|].
      * injection Hrec as <- _. split.
        -- intros k H1 H2. now rewrite !lookup_set_other by congruence.
        -- intros _ c' [= <-]. split.
           ++ now rewrite get_set_other, get_set_same by discriminate.
           ++ now rewrite get_set_same.
      * injection Hrec as <- _. split; [reflexivity | intros _ c' H; discriminate H].
    + injection Hrec as <- _. split; [reflexivity | discriminate].
  - intros Hfail. assert (user' = user) as ->.
    { unfold regeocode_record in Hrec.
      destruct Hfail as [Hfalse | Hnone].
      - rewrite Hfalse in Hrec. now injection Hrec as <- _.
      - destruct (Py.truthy (Py.get user "property_address"));
          [rewrite Hnone in Hrec|]; now injection Hrec as <- _. }
    apply store_eq; try reflexivity. cbn [users]. now apply list_insert_id.
Qed.

(** Bob presses the button while the geocoder is down: nothing changes. *)
Lemma regeocode_my_address_effect_witness :
  fst (regeocode_my_address geocoder_down 1 three_users) = three_users.
Proof.
  destruct (regeocode_my_address_effect geocoder_down 1 three_users bob eq_refl)
    as (_ & _ & _ & H & _).
  apply H. right. reflexivity.
Defined.

(** ** Witnesses for the nearest hotline and for the ids *)

(** With the fire station where Bob is and the others to the north, the
    police station is first among the hotlines at a known non-zero
    distance. *)
Lemma nearest_hotline_first_minimum_witness :
  exists before after,
    HOTLINES = before ++ police_station :: after
    /\ hotline_distance grid_distance bob_coords cache_near_bob police_station
       = Some (999 # 2000)%Q.
Proof.
  destruct (nearest_hotline_first_minimum grid_distance bob_coords
              cache_near_bob HOTLINES police_station (999 # 2000)%Q eq_refl)
    as (before & after & Ht & Hd & _).
  exists before, after. split; [exact Ht | exact Hd].
Defined.

(** In the sample store every user has a positive integer id. *)
Lemma reachable_ids_positive_witness : ids_positive (users three_users).
Proof.
  exact (proj1 (reachable_ids_positive geocoder_down address_not_found
                  three_users three_users_reachable)).
Defined.
